(** * goprof: the start/stop session guard of [profiler.go]

    A shallow embedding of package [goprof] and the properties of its
    lifecycle guard.  The package keeps one global [profiler] value [p];
    [Start], [Stop] and [Run] read and write it and call into the Go
    runtime ([os], [time], [runtime/pprof], [runtime/trace]).  The global
    and the runtime are threaded explicitly through a small state monad
    that also records every runtime call in a log. *)

From Stdlib Require Import ZArith Lia.
From stdpp Require Import base option list gmap strings pretty.

Local Open Scope string_scope.
Local Open Scope list_scope.
Local Open Scope Z_scope.

(** ** Values of the Go runtime *)

Module time.

(** A [time.Time] is modelled by the number of nanoseconds since the zero
    instant (January 1, year 1, 00:00:00 UTC); the zero value of the
    struct is that instant. *)
Definition Time : Type := Z.
Definition Duration : Type := Z.

Definition zero : Time := 0.

Definition IsZero (t : Time) : bool := Z.eqb t 0.

Definition minDuration : Duration := - 2 ^ 63.
Definition maxDuration : Duration := 2 ^ 63 - 1.

(** [t.Sub(u)]: the difference, saturated to the range of [Duration]. *)
Definition Sub (t u : Time) : Duration :=
  if Z.ltb (t - u) minDuration then minDuration
  else if Z.ltb maxDuration (t - u) then maxDuration
  else t - u.

(** Seconds between the zero instant and the Unix epoch. *)
Definition unixToInternal : Z :=
  (1969 * 365 + 1969 / 4 - 1969 / 100 + 1969 / 400) * 86400.

Definition wrap64 (z : Z) : Z := (z + 2 ^ 63) mod 2 ^ 64 - 2 ^ 63.

(** [t.UnixNano()], computed in [int64]. *)
Definition UnixNano (t : Time) : Z := wrap64 (t - unixToInternal * 10 ^ 9).

End time.

(** [*os.File]: [None] is the nil pointer, [Some h] points to the file
    object number [h]. *)
Abbreviation File := (option nat).

(** Errors that come out of the runtime, and the values of Go's [error]
    that this package can return: its own two sentinels, or a runtime
    error passed through. *)
Inductive ext_error : Type :=
| ErrInvalid                (* os.ErrInvalid: method called on a nil file pointer *)
| ErrClosed                 (* os.ErrClosed: file already closed *)
| ErrCPUInUse               (* pprof: cpu profiling already in use *)
| ErrTraceInUse             (* trace: tracing is already enabled *)
| ErrIO (code : nat).       (* a failure reported by the operating system *)

Inductive error : Type :=
| ErrAlreadyStarted
| ErrNotStarted
| Foreign (e : ext_error).

#[global] Instance ext_error_eq_dec : EqDecision ext_error.
Proof. solve_decision. Defined.
#[global] Instance error_eq_dec : EqDecision error.
Proof. solve_decision. Defined.

(** What a profile file holds: one entry per profile written to it. *)
Inductive Blob : Type := CPUProfile | TraceData | BlockProfile | HeapProfile.

#[global] Instance Blob_eq_dec : EqDecision Blob.
Proof. solve_decision. Defined.

(** ** The runtime *)

(** The part of the process outside the package.  [fault] and [clock] are
    the environment: the [n]-th runtime call fails with the operating
    system error [fault n] when there is one, and a clock read at that
    point returns [clock n], which is never the zero instant. *)
Record World : Type := mkWorld {
  ticks     : nat;
  fault     : nat -> option nat;
  clock     : nat -> positive;
  nextfd    : nat;
  fdtab     : gmap nat string;          (* open file objects and their paths *)
  disk      : gmap string (list Blob);  (* files that exist, with their contents *)
  cpuprof   : option File;              (* sink of the running CPU profile *)
  tracer    : option File;              (* sink of the running execution trace *)
  blockrate : Z
}.

Definition tick (w : World) : World :=
  mkWorld (S (ticks w)) (fault w) (clock w) (nextfd w) (fdtab w) (disk w)
          (cpuprof w) (tracer w) (blockrate w).

Definition with_files (w : World) (n : nat) (t : gmap nat string)
    (d : gmap string (list Blob)) : World :=
  mkWorld (ticks w) (fault w) (clock w) n t d (cpuprof w) (tracer w) (blockrate w).

Definition with_cpuprof (w : World) (c : option File) : World :=
  mkWorld (ticks w) (fault w) (clock w) (nextfd w) (fdtab w) (disk w)
          c (tracer w) (blockrate w).

Definition with_tracer (w : World) (c : option File) : World :=
  mkWorld (ticks w) (fault w) (clock w) (nextfd w) (fdtab w) (disk w)
          (cpuprof w) c (blockrate w).

Definition with_blockrate (w : World) (r : Z) : World :=
  mkWorld (ticks w) (fault w) (clock w) (nextfd w) (fdtab w) (disk w)
          (cpuprof w) (tracer w) r.

Module rt.

(** [os.Create(name)], that is
    [os.OpenFile(name, O_RDWR|O_CREATE|O_TRUNC, 0666)]: the file exists
    and is empty afterwards, and a new file object is returned. *)
Definition os_Create (name : string) (w : World) : (File + ext_error) * World :=
  match fault w (ticks w) with
  | Some c => (inr (ErrIO c), tick w)
  | None =>
      (inl (Some (nextfd w)),
       tick (with_files w (S (nextfd w))
               (<[nextfd w := name]> (fdtab w)) (<[name := []]> (disk w))))
  end.

(** [Close] on a [*os.File]. *)
Definition Close (f : File) (w : World) : option ext_error * World :=
  match f with
  | None => (Some ErrInvalid, tick w)
  | Some h =>
      match fdtab w !! h with
      | None => (Some ErrClosed, tick w)
      | Some _ =>
          (ErrIO <$> fault w (ticks w),
           tick (with_files w (nextfd w) (delete h (fdtab w)) (disk w)))
      end
  end.

(** [Write] on a [*os.File], of one profile; what the profile writers below
    call on their sink. *)
Definition Write (b : Blob) (f : File) (w : World) : option ext_error * World :=
  match f with
  | None => (Some ErrInvalid, tick w)
  | Some h =>
      match fdtab w !! h with
      | None => (Some ErrClosed, tick w)
      | Some path =>
          match fault w (ticks w) with
          | Some c => (Some (ErrIO c), tick w)
          | None =>
              (None,
               tick (with_files w (nextfd w) (fdtab w)
                       (<[path := default [] (disk w !! path) ++ [b]]> (disk w))))
          end
      end
  end.

(** [pprof.StartCPUProfile(f)]: refused while a CPU profile is running. *)
Definition StartCPUProfile (f : File) (w : World) : option ext_error * World :=
  match cpuprof w with
  | Some _ => (Some ErrCPUInUse, tick w)
  | None => (None, tick (with_cpuprof w (Some f)))
  end.

(** [pprof.StopCPUProfile()]: flushes the running profile to its sink
    (a write error is dropped) and does nothing when none is running. *)
Definition StopCPUProfile (w : World) : unit * World :=
  match cpuprof w with
  | None => (tt, tick w)
  | Some f => (tt, with_cpuprof (snd (Write CPUProfile f w)) None)
  end.

(** [trace.Start(f)]: refused while a trace is running.  Otherwise the
    trace is streamed into the sink from the start on: the header is
    written as tracing begins (a write error is dropped). *)
Definition TraceStart (f : File) (w : World) : option ext_error * World :=
  match tracer w with
  | Some _ => (Some ErrTraceInUse, tick w)
  | None => (None, with_tracer (snd (Write TraceData f w)) (Some f))
  end.

(** [trace.Stop()]. *)
Definition TraceStop (w : World) : unit * World :=
  match tracer w with
  | None => (tt, tick w)
  | Some f => (tt, with_tracer (snd (Write TraceData f w)) None)
  end.

(** [runtime.SetBlockProfileRate(rate)]. *)
Definition SetBlockProfileRate (rate : Z) (w : World) : unit * World :=
  (tt, tick (with_blockrate w rate)).

(** [pprof.Lookup("block").WriteTo(f, 0)]. *)
Definition BlockWriteTo (f : File) (w : World) : option ext_error * World :=
  Write BlockProfile f w.

(** [pprof.WriteHeapProfile(f)]. *)
Definition WriteHeapProfile (f : File) (w : World) : option ext_error * World :=
  Write HeapProfile f w.

(** [time.Now()]. *)
Definition Now (w : World) : time.Time * World :=
  (Z.pos (clock w (ticks w)), tick w).

End rt.

(** ** The log of runtime calls *)

Inductive Call : Type :=
| OsCreate (name : string)
| FileClose (f : File)
| StartCPUProfile (f : File)
| StopCPUProfile
| TraceStart (f : File)
| TraceStop
| SetBlockProfileRate (rate : Z)
| BlockWriteTo (f : File)
| WriteHeapProfile (f : File)
| TimeNow.

Inductive Outcome : Type :=
| Done
| Opened (f : File)
| Instant (t : time.Time)
| Failed (e : ext_error).

(** [Ev c o]: the runtime call [c] was made and came back with [o].
    [EvWork]: the function value handed to [Run] was called. *)
Inductive Event : Type :=
| Ev (c : Call) (o : Outcome)
| EvWork.

#[global] Instance Call_eq_dec : EqDecision Call.
Proof. solve_decision. Defined.
#[global] Instance Outcome_eq_dec : EqDecision Outcome.
Proof. solve_decision. Defined.
#[global] Instance Event_eq_dec : EqDecision Event.
Proof. solve_decision. Defined.

(** ** The package state *)

Record profiler : Type := mkProfiler {
  start : time.Time;
  end_  : time.Time;
  (* these are the different reports that get written out *)
  cpu   : File;
  block : File;
  trace : File;
  heap  : File
}.

(** The zero value of the global [var p profiler]. *)
Definition p0 : profiler := mkProfiler time.zero time.zero None None None None.

(** [func (p *profiler) started() bool] *)
Definition started (p : profiler) : bool :=
  negb (time.IsZero (start p)) && negb (time.IsZero (end_ p)).

(** [func (p *profiler) duration() time.Duration] *)
Definition duration (p : profiler) : time.Duration :=
  time.Sub (end_ p) (start p).

Record St : Type := mkSt { prof : profiler; world : World }.

(** ** The monad: state, and the log of what was called *)

Definition M (A : Type) : Type := St -> A * St * list Event.

Definition ret {A} (a : A) : M A := fun s => (a, s, []).

Definition bind {A B} (m : M A) (k : A -> M B) : M B :=
  fun s =>
    let '(a, s1, l1) := m s in
    let '(b, s2, l2) := k a s1 in
    (b, s2, l1 ++ l2).

Definition result {A} (x : A * St * list Event) : A := fst (fst x).
Definition final {A} (x : A * St * list Event) : St := snd (fst x).
Definition log {A} (x : A * St * list Event) : list Event := snd x.

Declare Scope go_scope.
Delimit Scope go_scope with go.

Notation "x <- m ;; k" := (bind m (fun x => k))
  (at level 100, m at next level, k at level 200, right associativity) : go_scope.
Notation "m ;; k" := (bind m (fun _ => k))
  (at level 100, k at level 200, right associativity) : go_scope.
(** [if err := m; err != nil { return err }] *)
Notation "'check' m ;; k" :=
  (bind m (fun r => match r with Some e => ret (Some e) | None => k end))
  (at level 100, m at next level, k at level 200, right associativity) : go_scope.
(** [x, err := m; if err != nil { return err }] *)
Notation "'try' x <- m ;; k" :=
  (bind m (fun r => match r with inr e => ret (Some e) | inl x => k end))
  (at level 100, x name, m at next level, k at level 200, right associativity) : go_scope.

Local Open Scope go_scope.

Definition get_p : M profiler := fun s => (prof s, s, []).

Definition set_p (f : profiler -> profiler) : M unit :=
  fun s => (tt, mkSt (f (prof s)) (world s), []).

Definition set_start (t : time.Time) (p : profiler) : profiler :=
  mkProfiler t (end_ p) (cpu p) (block p) (trace p) (heap p).
Definition set_end (t : time.Time) (p : profiler) : profiler :=
  mkProfiler (start p) t (cpu p) (block p) (trace p) (heap p).
Definition set_cpu (f : File) (p : profiler) : profiler :=
  mkProfiler (start p) (end_ p) f (block p) (trace p) (heap p).
Definition set_block (f : File) (p : profiler) : profiler :=
  mkProfiler (start p) (end_ p) (cpu p) f (trace p) (heap p).
Definition set_trace (f : File) (p : profiler) : profiler :=
  mkProfiler (start p) (end_ p) (cpu p) (block p) f (heap p).
Definition set_heap (f : File) (p : profiler) : profiler :=
  mkProfiler (start p) (end_ p) (cpu p) (block p) (trace p) f.

(** A runtime call: runs on the world, leaves [p] alone, and is logged
    with its outcome. *)
Definition call {X Y} (c : Call) (f : World -> X * World)
    (out : X -> Outcome) (conv : X -> Y) : M Y :=
  fun s =>
    let '(x, w) := f (world s) in
    (conv x, mkSt (prof s) w, [Ev c (out x)]).

Definition out_err (r : option ext_error) : Outcome :=
  match r with Some e => Failed e | None => Done end.

Definition out_file (r : File + ext_error) : Outcome :=
  match r with inl f => Opened f | inr e => Failed e end.

Definition as_error (r : option ext_error) : option error := Foreign <$> r.

Definition os_Create (name : string) : M (File + error) :=
  call (OsCreate name) (rt.os_Create name) out_file
       (fun r => match r with inl f => inl f | inr e => inr (Foreign e) end).

Definition file_Close (f : File) : M (option error) :=
  call (FileClose f) (rt.Close f) out_err as_error.

Definition pprof_StartCPUProfile (f : File) : M (option error) :=
  call (StartCPUProfile f) (rt.StartCPUProfile f) out_err as_error.

Definition pprof_StopCPUProfile : M unit :=
  call StopCPUProfile rt.StopCPUProfile (fun _ => Done) id.

Definition trace_Start (f : File) : M (option error) :=
  call (TraceStart f) (rt.TraceStart f) out_err as_error.

Definition trace_Stop : M unit :=
  call TraceStop rt.TraceStop (fun _ => Done) id.

Definition runtime_SetBlockProfileRate (rate : Z) : M unit :=
  call (SetBlockProfileRate rate) (rt.SetBlockProfileRate rate) (fun _ => Done) id.

Definition pprof_Lookup_block_WriteTo (f : File) : M (option error) :=
  call (BlockWriteTo f) (rt.BlockWriteTo f) out_err as_error.

Definition pprof_WriteHeapProfile (f : File) : M (option error) :=
  call (WriteHeapProfile f) (rt.WriteHeapProfile f) out_err as_error.

Definition time_Now : M time.Time :=
  call TimeNow rt.Now Instant id.

(** ** profiler.go *)

Definition cpuName (name : string) : string := name +:+ ".cpu.pprof".
Definition blockName (name : string) : string := name +:+ ".block.prof".
Definition traceName (name : string) : string := name +:+ ".trace.out".
Definition heapName (name : string) : string := name +:+ ".heap.prof".

Definition setupFiles (name : string) : M (option error) :=
  try f <- os_Create (cpuName name) ;;
  set_p (set_cpu f) ;;
  try f <- os_Create (blockName name) ;;
  set_p (set_block f) ;;
  try f <- os_Create (traceName name) ;;
  set_p (set_trace f) ;;
  try f <- os_Create (heapName name) ;;
  set_p (set_heap f) ;;
  ret None.

Definition cleanupFiles : M (option error) :=
  p <- get_p ;; check file_Close (cpu p) ;;
  p <- get_p ;; check file_Close (block p) ;;
  p <- get_p ;; check file_Close (trace p) ;;
  p <- get_p ;; check file_Close (heap p) ;;
  ret None.

(** [fmt.Sprintf("goprof-%d", t.UnixNano())] *)
Definition defaultName (t : time.Time) : string :=
  "goprof-" +:+ pretty (time.UnixNano t).

Definition Start (name : string) : M (option error) :=
  p <- get_p ;;
  if started p then ret (Some ErrAlreadyStarted) else
  name <- (if String.eqb name "" then
             now <- time_Now ;; ret (defaultName now)
           else ret name) ;;
  check setupFiles name ;;
  p <- get_p ;; check pprof_StartCPUProfile (cpu p) ;;
  p <- get_p ;; check trace_Start (trace p) ;;
  runtime_SetBlockProfileRate 1 ;;
  (* run this last; we don't want setup to affect total time *)
  now <- time_Now ;;
  set_p (set_start now) ;;
  ret None.

Definition Stop : M (option error) :=
  p <- get_p ;;
  if negb (started p) then ret (Some ErrNotStarted) else
  (* run this first; we don't want tear down to affect total time *)
  now <- time_Now ;;
  set_p (set_end now) ;;
  pprof_StopCPUProfile ;;
  trace_Stop ;;
  p <- get_p ;; check pprof_Lookup_block_WriteTo (block p) ;;
  p <- get_p ;; check pprof_WriteHeapProfile (heap p) ;;
  check cleanupFiles ;;
  ret None.

(** The call [f()] of a function value: logged, then the body runs.  The
    body is any code that returns: it may change [p] through the package
    and may call into the runtime. *)
Definition invoke (f : M unit) : M unit :=
  fun s => let '(u, s1, l) := f s in (u, s1, EvWork :: l).

Definition Run (name : string) (f : M unit) : M (option error) :=
  check Start name ;;
  invoke f ;;
  Stop.

(** ** Reading logs *)

(** The runtime calls of a log, in order. *)
Definition calls (l : list Event) : list Call :=
  omap (fun ev => match ev with Ev c _ => Some c | EvWork => None end) l.

(** The paths handed to [os.Create], in order. *)
Definition attempted (l : list Event) : list string :=
  omap (fun ev => match ev with Ev (OsCreate n) _ => Some n | _ => None end) l.

(** An event that is not a failed runtime call. *)
Definition succeeded (ev : Event) : Prop :=
  match ev with Ev _ (Failed _) => False | _ => True end.

(** The four output files of a session labelled [name]. *)
Definition sinkNames (name : string) : list string :=
  [cpuName name; blockName name; traceName name; heapName name].


(** The runtime calls of a [Start] labelled [L] that come before the clock
    is read, when all of them succeed. *)
Definition setup (L : string) (p : profiler) : list Call :=
  map OsCreate (sinkNames L) ++
  [StartCPUProfile (cpu p); TraceStart (trace p); SetBlockProfileRate 1].

(** [L] is the label under which a [Start] called with [name] and logged
    as [l] names its files: [name] itself, or for the empty [name] the
    default made from the clock reading that opens the log. *)
Definition label_of (name : string) (l : list Event) (L : string) : Prop :=
  if String.eqb name "" then
    exists t l', l = Ev TimeNow (Instant t) :: l' /\ L = defaultName t
  else L = name.

(** The three states of the guard, read off the two timestamps. *)
Definition Idle (p : profiler) : Prop := start p = time.zero /\ end_ p = time.zero.
Definition Active (p : profiler) : Prop := start p <> time.zero /\ end_ p = time.zero.
Definition Closed (p : profiler) : Prop := start p <> time.zero /\ end_ p <> time.zero.

(** ** A concrete process *)

(** A clock that reads some instant of the year 2026 and moves on by a
    microsecond per runtime call; an operating system that never fails. *)
Definition epoch2026 : Z := time.unixToInternal * 10 ^ 9 + 1793000000 * 10 ^ 9.

Definition quiet : World :=
  mkWorld 0 (fun _ => None) (fun n => Z.to_pos (epoch2026 + 1000 * Z.of_nat n))
          0 ∅ ∅ None None 0.

(** The same, but the [n]-th runtime call fails in the operating system. *)
Definition failing_at (n : nat) : World :=
  mkWorld 0 (fun k => if Nat.eqb k n then Some 28%nat else None)
          (fun n => Z.to_pos (epoch2026 + 1000 * Z.of_nat n))
          0 ∅ ∅ None None 0.

(** The process as it starts: [p] is the zero value. *)
Definition boot : St := mkSt p0 quiet.

(** A process in the Closed state: the session of [Start("demo")] with
    [end] set half a microsecond after [start], its four files open. *)
Definition ended : St :=
  let a := Start "demo" boot in
  mkSt (set_end (start (prof (final a)) + 500) (prof (final a))) (world (final a)).

(** Work that does nothing. *)
Definition skip : M unit := ret tt.

(** ** Clients *)

(** A client that uses the package through a sequence of [Start] and
    [Stop] calls, as in the package documentation, and collects what they
    return. *)
Inductive Op : Type :=
| OpStart (name : string)
| OpStop.

Definition step (o : Op) : M (option error) :=
  match o with
  | OpStart name => Start name
  | OpStop => Stop
  end.

Fixpoint script (ops : list Op) : M (list (option error)) :=
  match ops with
  | [] => ret []
  | o :: ops' =>
      e <- step o ;;
      es <- script ops' ;;
      ret (e :: es)
  end.

(** The runtime calls of [Start]; the others are those of [Stop]. *)
Definition is_setup (c : Call) : bool :=
  match c with
  | TimeNow | OsCreate _ | StartCPUProfile _ | TraceStart _ | SetBlockProfileRate _ => true
  | _ => false
  end.

(** [path] holds the profile [b]. *)
Definition holds (w : World) (path : string) (b : Blob) : Prop :=
  exists c, disk w !! path = Some c /\ In b c.

(** A process whose program already runs an execution trace of its own,
    into [app.trace]. *)
Definition tracing : World :=
  with_tracer (snd (rt.os_Create "app.trace" quiet)) (Some (Some 0%nat)).

(** ** Printing *)

Definition newline : string := String (Ascii.ascii_of_nat 10) "".

(** The first character of a string literal. *)
Definition chr (s : string) : Ascii.ascii :=
  match s with String c _ => c | "" => Ascii.zero end.

(** [fmt.Sprintf(format, arg)] for a format whose only verb is one [%s]. *)
Fixpoint Sprintf_s (format arg : string) : string :=
  match format with
  | "" => ""
  | String c rest =>
      if Ascii.eqb c (chr "%") then
        match rest with
        | String d rest' =>
            if Ascii.eqb d (chr "s") then arg +:+ rest'
            else String c (Sprintf_s rest arg)
        | "" => String c ""
        end
      else String c (Sprintf_s rest arg)
  end.

(** The [fmt.Printf] calls of [Commands], format and argument. *)
Definition Commands_printfs (name : string) : list (string * string) :=
  [("go tool pprof %s" +:+ newline, cpuName name);
   ("go tool pprof -http=:6060 %s" +:+ newline, cpuName name);
   ("go tool trace %s" +:+ newline, traceName name);
   ("go tool pprof %s" +:+ newline, blockName name);
   ("go tool pprof %s" +:+ newline, heapName name)].

(** [func Commands(name string)]: the text it writes to standard output. *)
Definition Commands (name : string) : string :=
  String.concat "" (map (fun fa => Sprintf_s (fst fa) (snd fa)) (Commands_printfs name)).

(** ** Proof support *)

(** The runtime functions are kept folded while the package code is run
    symbolically; their effect is used through the lemmas below. *)
Arguments rt.os_Create : simpl never.
Arguments rt.Close : simpl never.
Arguments rt.Write : simpl never.
Arguments rt.StartCPUProfile : simpl never.
Arguments rt.StopCPUProfile : simpl never.
Arguments rt.TraceStart : simpl never.
Arguments rt.TraceStop : simpl never.
Arguments rt.SetBlockProfileRate : simpl never.
Arguments rt.BlockWriteTo : simpl never.
Arguments rt.WriteHeapProfile : simpl never.
Arguments rt.Now : simpl never.

Ltac unfold_go :=
  unfold Run, invoke, Start, Stop, setupFiles, cleanupFiles, bind, ret, get_p, set_p,
    os_Create, file_Close, pprof_StartCPUProfile, pprof_StopCPUProfile, trace_Start,
    trace_Stop, runtime_SetBlockProfileRate, pprof_Lookup_block_WriteTo,
    pprof_WriteHeapProfile, time_Now, call, result, final, log.

(** Case split on the outcome of the next runtime call of the goal. *)
Ltac rt_step :=
  match goal with
  | |- context [rt.os_Create ?a ?b] =>
      let E := fresh "Ecreate" in
      destruct (rt.os_Create a b) as [[?f | ?e] ?w] eqn:E
  | |- context [rt.Close ?a ?b] =>
      let E := fresh "Eclose" in
      destruct (rt.Close a b) as [[?e |] ?w] eqn:E
  | |- context [rt.StartCPUProfile ?a ?b] =>
      let E := fresh "Ecpu" in
      destruct (rt.StartCPUProfile a b) as [[?e |] ?w] eqn:E
  | |- context [rt.TraceStart ?a ?b] =>
      let E := fresh "Etrace" in
      destruct (rt.TraceStart a b) as [[?e |] ?w] eqn:E
  | |- context [rt.BlockWriteTo ?a ?b] =>
      let E := fresh "Eblock" in
      destruct (rt.BlockWriteTo a b) as [[?e |] ?w] eqn:E
  | |- context [rt.WriteHeapProfile ?a ?b] =>
      let E := fresh "Eheap" in
      destruct (rt.WriteHeapProfile a b) as [[?e |] ?w] eqn:E
  | |- context [rt.StopCPUProfile ?b] =>
      let E := fresh "Estopcpu" in
      destruct (rt.StopCPUProfile b) as [[] ?w] eqn:E
  | |- context [rt.TraceStop ?b] =>
      let E := fresh "Estoptrace" in
      destruct (rt.TraceStop b) as [[] ?w] eqn:E
  | |- context [rt.SetBlockProfileRate ?a ?b] =>
      let E := fresh "Erate" in
      destruct (rt.SetBlockProfileRate a b) as [[] ?w] eqn:E
  | |- context [rt.Now ?b] =>
      let E := fresh "Enow" in
      destruct (rt.Now b) as [?t ?w] eqn:E
  end; cbn.

(** *** The guard *)

Lemma started_true p : started p = true <-> Closed p.
Proof.
  unfold started, Closed, time.IsZero, time.zero.
  rewrite andb_true_iff, !negb_true_iff, !Z.eqb_neq. tauto.
Qed.

Lemma started_false_start p : start p = time.zero -> started p = false.
Proof. unfold started, time.IsZero, time.zero. intros ->. reflexivity. Qed.

Lemma started_false_end p : end_ p = time.zero -> started p = false.
Proof.
  unfold started, time.IsZero, time.zero. intros ->.
  apply andb_false_r.
Qed.

Lemma started_Idle p : Idle p -> started p = false.
Proof. intros [H _]. now apply started_false_start. Qed.

Lemma started_Active p : Active p -> started p = false.
Proof. intros [_ H]. now apply started_false_end. Qed.

(** *** The runtime *)

Lemma Now_eq (w w' : World) t : rt.Now w = (t, w') ->
  t = Z.pos (clock w (ticks w)) /\ w' = tick w.
Proof. unfold rt.Now. intros [= <- <-]. auto. Qed.

Lemma Now_nonzero (w w' : World) t : rt.Now w = (t, w') -> t <> time.zero.
Proof. intros [-> _]%Now_eq. discriminate. Qed.

Lemma os_Create_inl (w w' : World) name f : rt.os_Create name w = (inl f, w') ->
  f = Some (nextfd w) /\
  nextfd w' = S (nextfd w) /\
  fdtab w' = <[nextfd w := name]> (fdtab w) /\
  disk w' = <[name := []]> (disk w).
Proof.
  unfold rt.os_Create. destruct (fault w (ticks w)); intros [= <- <-]. auto.
Qed.

Lemma os_Create_inr (w w' : World) name e : rt.os_Create name w = (inr e, w') ->
  nextfd w' = nextfd w /\ fdtab w' = fdtab w /\ disk w' = disk w.
Proof.
  unfold rt.os_Create. destruct (fault w (ticks w)); intros [= <- <-]. auto.
Qed.

Lemma StartCPUProfile_files (w w' : World) f r : rt.StartCPUProfile f w = (r, w') ->
  nextfd w' = nextfd w /\ fdtab w' = fdtab w /\ disk w' = disk w.
Proof.
  unfold rt.StartCPUProfile. destruct (cpuprof w); intros [= <- <-]; auto.
Qed.

(** A write leaves the file table alone, and the disk too unless it puts
    its profile at the end of the file that the file object is open on. *)
Lemma Write_files (w w' : World) b f r : rt.Write b f w = (r, w') ->
  nextfd w' = nextfd w /\ fdtab w' = fdtab w /\
  (disk w' = disk w \/
   exists h path, f = Some h /\ fdtab w !! h = Some path /\
     disk w' = <[path := default [] (disk w !! path) ++ [b]]> (disk w)).
Proof.
  unfold rt.Write. destruct f as [h|]; [|intros [= <- <-]; auto].
  destruct (fdtab w !! h) as [path|] eqn:E; [|intros [= <- <-]; auto].
  destruct (fault w (ticks w)); intros [= <- <-]; auto.
  split; [reflexivity|]. split; [reflexivity|]. right. exists h, path. auto.
Qed.

Lemma TraceStart_files (w w' : World) f r : rt.TraceStart f w = (r, w') ->
  nextfd w' = nextfd w /\ fdtab w' = fdtab w /\
  (disk w' = disk w \/
   exists h path, f = Some h /\ fdtab w !! h = Some path /\
     disk w' = <[path := default [] (disk w !! path) ++ [TraceData]]> (disk w)).
Proof.
  unfold rt.TraceStart. destruct (tracer w); intros [= <- <-]; auto.
  destruct (rt.Write TraceData f w) as [r' w1] eqn:E.
  apply Write_files in E. cbn. exact E.
Qed.

Lemma SetBlockProfileRate_files (w w' : World) n r : rt.SetBlockProfileRate n w = (r, w') ->
  nextfd w' = nextfd w /\ fdtab w' = fdtab w /\ disk w' = disk w.
Proof. unfold rt.SetBlockProfileRate. intros [= <- <-]; auto. Qed.

Lemma Now_files (w w' : World) t : rt.Now w = (t, w') ->
  nextfd w' = nextfd w /\ fdtab w' = fdtab w /\ disk w' = disk w.
Proof. unfold rt.Now. intros [= <- <-]; auto. Qed.

Lemma Write_fdtab (w w' : World) b f r : rt.Write b f w = (r, w') -> fdtab w' = fdtab w.
Proof.
  unfold rt.Write. destruct f as [h|]; [|intros [= <- <-]; auto].
  destruct (fdtab w !! h); [|intros [= <- <-]; auto].
  destruct (fault w (ticks w)); intros [= <- <-]; auto.
Qed.

Lemma StopCPUProfile_fdtab (w w' : World) r : rt.StopCPUProfile w = (r, w') -> fdtab w' = fdtab w.
Proof.
  unfold rt.StopCPUProfile. destruct (cpuprof w) as [f|]; intros [= <- <-]; auto.
  cbn. destruct (rt.Write CPUProfile f w) as [r' w1] eqn:E.
  apply (Write_fdtab _ _ _ _ _ E).
Qed.

Lemma TraceStop_fdtab (w w' : World) r : rt.TraceStop w = (r, w') -> fdtab w' = fdtab w.
Proof.
  unfold rt.TraceStop. destruct (tracer w) as [f|]; intros [= <- <-]; auto.
  cbn. destruct (rt.Write TraceData f w) as [r' w1] eqn:E.
  apply (Write_fdtab _ _ _ _ _ E).
Qed.

Lemma BlockWriteTo_fdtab (w w' : World) f r :
  rt.BlockWriteTo f w = (r, w') -> fdtab w' = fdtab w.
Proof. apply Write_fdtab. Qed.

Lemma WriteHeapProfile_fdtab (w w' : World) f r :
  rt.WriteHeapProfile f w = (r, w') -> fdtab w' = fdtab w.
Proof. apply Write_fdtab. Qed.

Lemma Now_fdtab (w w' : World) t : rt.Now w = (t, w') -> fdtab w' = fdtab w.
Proof. intros H. now apply Now_files in H. Qed.


(** What the outcome of a runtime call says about the file table. *)
Ltac rt_facts :=
  repeat match goal with
    | H : rt.os_Create _ _ = (inl _, _) |- _ =>
        apply os_Create_inl in H; destruct H as (? & ? & ? & ?)
    | H : rt.os_Create _ _ = (inr _, _) |- _ =>
        apply os_Create_inr in H; destruct H as (? & ? & ?)
    | H : rt.StartCPUProfile _ _ = _ |- _ =>
        apply StartCPUProfile_files in H; destruct H as (? & ? & ?)
    | H : rt.TraceStart _ _ = _ |- _ =>
        apply TraceStart_files in H; destruct H as (? & ? & ?)
    | H : rt.SetBlockProfileRate _ _ = _ |- _ =>
        apply SetBlockProfileRate_files in H; destruct H as (? & ? & ?)
    | H : rt.Now _ = _ |- _ =>
        apply Now_files in H; destruct H as (? & ? & ?)
    end.

(** Rewrite the file table, the disk and the next file object number of
    later worlds in terms of the earliest one. *)
Ltac rt_rewind :=
  repeat match goal with
    | H : fdtab _ = _ |- _ => rewrite H
    | H : disk _ = _ |- _ => rewrite H
    | H : nextfd _ = _ |- _ => rewrite H
    end.

(** *** Stop *)

(** C3. [Stop] called in the Idle state, where no [Start] has been made and
    both timestamps are unset, returns [ErrNotStarted]. *)
Theorem Stop_Idle_NotStarted (s : St) :
  Idle (prof s) -> result (Stop s) = Some ErrNotStarted.
Proof.
  intros H. unfold_go. rewrite (started_Idle _ H). reflexivity.
Qed.

Lemma Stop_Idle_NotStarted_witness :
  Idle (prof boot) /\ result (Stop boot) = Some ErrNotStarted.
Proof.
  assert (H : Idle (prof boot)) by (split; reflexivity).
  split; [exact H | exact (Stop_Idle_NotStarted boot H)].
Defined.

(** An error that [Stop] returns once its guard has let it through comes
    from the runtime. *)
Lemma Stop_started_result (s : St) :
  started (prof s) = true ->
  result (Stop s) = None \/ exists x, result (Stop s) = Some (Foreign x).
Proof.
  intros H. unfold_go. rewrite H. cbn.
  repeat rt_step; eauto.
Qed.

(** C10. Whenever [Stop] returns [ErrNotStarted] it has changed nothing of
    the session state: the two timestamps and the four sinks of [p] are
    as before (and no runtime call was made). *)
Theorem Stop_NotStarted_unchanged (s : St) :
  result (Stop s) = Some ErrNotStarted ->
  prof (final (Stop s)) = prof s /\ final (Stop s) = s /\ log (Stop s) = [].
Proof.
  intros H. destruct (started (prof s)) eqn:G.
  - destruct (Stop_started_result s G) as [E | [x E]]; congruence.
  - clear H. unfold_go. rewrite G. cbn. auto.
Qed.

Lemma Stop_NotStarted_unchanged_witness :
  result (Stop boot) = Some ErrNotStarted /\
  prof (final (Stop boot)) = p0 /\ log (Stop boot) = [].
Proof.
  assert (H : result (Stop boot) = Some ErrNotStarted) by reflexivity.
  destruct (Stop_NotStarted_unchanged boot H) as (Hp & _ & Hl).
  split; [exact H | split; [exact Hp | exact Hl]].
Defined.

(** C9. In the Closed state (both timestamps set) a further [Stop] is not
    turned away with [ErrNotStarted]: it reads the clock first and
    overwrites [end] with that reading, [start] stays, and the duration is
    recomputed from the new reading, so that it changes whenever the clock
    has moved (both differences within the range of [Duration]). *)
Theorem Stop_Closed_overwrites_end (s : St) :
  Closed (prof s) ->
  let now := Z.pos (clock (world s) (ticks (world s))) in
  let r := Stop s in
  result r <> Some ErrNotStarted /\
  (exists l, log r = Ev TimeNow (Instant now) :: l) /\
  end_ (prof (final r)) = now /\
  start (prof (final r)) = start (prof s) /\
  duration (prof (final r)) = time.Sub now (start (prof s)) /\
  (now <> end_ (prof s) ->
   time.minDuration <= end_ (prof s) - start (prof s) <= time.maxDuration ->
   time.minDuration <= now - start (prof s) <= time.maxDuration ->
   duration (prof (final r)) <> duration (prof s)).
Proof.
  intros HC now r.
  assert (G : started (prof s) = true) by now apply started_true.
  assert (Hr : result r <> Some ErrNotStarted).
  { destruct (Stop_started_result s G) as [E | [x E]]; subst r; congruence. }
  assert (Hs : (exists l, log r = Ev TimeNow (Instant now) :: l) /\
               end_ (prof (final r)) = now /\
               start (prof (final r)) = start (prof s)).
  { subst r now. unfold_go. rewrite G. cbn.
    rt_step. apply Now_eq in Enow as [-> ->].
    repeat rt_step; eauto. }
  destruct Hs as (Hl & He & Hst).
  assert (Hd : duration (prof (final r)) = time.Sub now (start (prof s))).
  { unfold duration. now rewrite He, Hst. }
  repeat split; try assumption.
  intros Hne R1 R2. rewrite Hd. unfold duration, time.Sub.
  unfold time.minDuration, time.maxDuration in *.
  repeat case_match; lia.
Qed.

Lemma Stop_Closed_overwrites_end_witness :
  Closed (prof ended) /\
  result (Stop ended) <> Some ErrNotStarted /\
  end_ (prof (final (Stop ended))) = epoch2026 + 8000 /\
  duration (prof (final (Stop ended))) <> duration (prof ended).
Proof.
  assert (H : Closed (prof ended)) by (split; vm_compute; discriminate).
  destruct (Stop_Closed_overwrites_end ended H) as (Hr & _ & He & _ & _ & Hd).
  split; [exact H |]. split; [exact Hr |]. split; [exact He |].
  apply Hd; vm_compute; repeat split; discriminate.
Defined.

(** *** Start *)

(** An error that [Start] returns once its guard has let it through comes
    from the runtime. *)
Lemma Start_unstarted_result (name : string) (s : St) :
  started (prof s) = false ->
  result (Start name s) = None \/ exists x, result (Start name s) = Some (Foreign x).
Proof.
  intros H. unfold_go. rewrite H.
  destruct (String.eqb name ""); cbn; repeat rt_step; eauto.
Qed.

(** [Start] never writes [end]. *)
Lemma Start_keeps_end (name : string) (s : St) :
  end_ (prof (final (Start name s))) = end_ (prof s).
Proof.
  unfold_go. destruct (started (prof s)); [reflexivity|].
  destruct (String.eqb name ""); cbn; repeat rt_step; reflexivity.
Qed.

(** Only runtime calls are logged by [Start] and by [Stop]. *)
Lemma Start_log_calls (name : string) (s : St) : ~ In EvWork (log (Start name s)).
Proof.
  unfold_go. destruct (started (prof s)); [cbn; tauto|].
  destruct (String.eqb name ""); cbn; repeat rt_step; intuition discriminate.
Qed.

Lemma Stop_log_calls (s : St) : ~ In EvWork (log (Stop s)).
Proof.
  unfold_go. destruct (started (prof s)); [|cbn; tauto].
  cbn; repeat rt_step; intuition discriminate.
Qed.

(** A successful [Start] has set [start]. *)
Lemma Start_ok_start (name : string) (s : St) :
  result (Start name s) = None -> start (prof (final (Start name s))) <> time.zero.
Proof.
  unfold_go. destruct (started (prof s)); [discriminate|].
  destruct (String.eqb name ""); cbn; repeat rt_step; try discriminate;
    intros _; eapply Now_nonzero; eassumption.
Qed.

(** In the Closed state the guard of [Start] turns the call away. *)
Lemma Start_Closed_AlreadyStarted (name : string) (s : St) :
  Closed (prof s) -> Start name s = (Some ErrAlreadyStarted, s, []).
Proof.
  intros H%started_true. unfold Start, bind, get_p, ret. now rewrite H.
Qed.

(** In the Active state the guard of [Start] lets the call through. *)
Lemma Start_Active_not_rejected (name : string) (s : St) :
  Active (prof s) -> result (Start name s) <> Some ErrAlreadyStarted.
Proof.
  intros H%started_Active.
  destruct (Start_unstarted_result name s H) as [E | [x E]]; congruence.
Qed.

(** What [Stop] does when its guard turns the call away. *)
Lemma Stop_unstarted (s : St) :
  started (prof s) = false -> Stop s = (Some ErrNotStarted, s, []).
Proof. intros H. unfold Stop, bind, get_p, ret. now rewrite H. Qed.

(** After a [Start] from a state whose [end] is unset, the guard of [Stop]
    turns the call away. *)
Lemma Stop_after_Start (name : string) (s : St) :
  end_ (prof s) = time.zero ->
  result (Stop (final (Start name s))) = Some ErrNotStarted.
Proof.
  intros H. rewrite Stop_unstarted; [reflexivity|].
  apply started_false_end. now rewrite Start_keeps_end.
Qed.

(** C1, evaluated.  In a fresh process [Start("demo")] succeeds and the
    session is Active; a second [Start("demo")] is let through by the
    guard: it creates the four files again, stores the new file objects
    in [p] in place of those of the first session, and returns the
    runtime's refusal to start a second CPU profile, not
    [ErrAlreadyStarted]. *)
Theorem Start_twice_demo :
  let a := Start "demo" boot in
  let b := Start "demo" (final a) in
  result a = None /\ Active (prof (final a)) /\
  result b = Some (Foreign ErrCPUInUse) /\
  attempted (log b) = sinkNames "demo" /\
  (cpu (prof (final a)), block (prof (final a)),
   trace (prof (final a)), heap (prof (final a)))
    = (Some 0%nat, Some 1%nat, Some 2%nat, Some 3%nat) /\
  (cpu (prof (final b)), block (prof (final b)),
   trace (prof (final b)), heap (prof (final b)))
    = (Some 4%nat, Some 5%nat, Some 6%nat, Some 7%nat).
Proof.
  vm_compute. repeat split; discriminate.
Qed.

(** C2, evaluated.  In a fresh process [Start("demo")] succeeds and the
    session is Active; the [Stop] that follows returns [ErrNotStarted]
    without a single runtime call: [end] stays unset, the four file
    objects stay open, the cpu, block and heap files stay empty and the
    trace file holds only the header written when the trace started. *)
Theorem Start_Stop_demo :
  let a := Start "demo" boot in
  let b := Stop (final a) in
  result a = None /\ Active (prof (final a)) /\
  result b = Some ErrNotStarted /\
  log b = [] /\
  end_ (prof (final b)) = time.zero /\
  (fun h => fdtab (world (final b)) !! h) <$> [0; 1; 2; 3]%nat
    = Some <$> sinkNames "demo" /\
  (fun n => disk (world (final b)) !! n) <$> sinkNames "demo"
    = [Some []; Some []; Some [TraceData]; Some []].
Proof.
  vm_compute. repeat split; discriminate.
Qed.

(** *** Run *)

(** C4. When the [Start] inside [Run] fails, [Run] returns that error in
    the state [Start] left and the work is not called.  When it succeeds,
    [Run] calls the work once, on the state [Start] left, in which [start]
    is set and [end] is as it was (the session is Active when it was never
    ended before); only then does it call [Stop], on the state the work
    left, and it returns what [Stop] returns. *)
Theorem Run_spec (name : string) (f : M unit) (s : St) :
  let a := Start name s in
  (forall e, result a = Some e ->
     Run name f s = (Some e, final a, log a) /\
     ~ In EvWork (log (Run name f s)))
  /\
  (result a = None ->
     let b := f (final a) in
     let c := Stop (final b) in
     Run name f s = (result c, final c, log a ++ EvWork :: log b ++ log c) /\
     ~ In EvWork (log a) /\ ~ In EvWork (log c) /\
     start (prof (final a)) <> time.zero /\
     end_ (prof (final a)) = end_ (prof s) /\
     (end_ (prof s) = time.zero -> Active (prof (final a)))).
Proof.
  intros a.
  pose proof (Start_log_calls name s) as Ha. fold a in Ha.
  split.
  - intros e He.
    assert (E : Run name f s = (Some e, final a, log a)).
    { unfold Run, bind. fold a. destruct a as [[r s1] l1].
      unfold result, final, log in *. cbn [fst snd] in *. subst r.
      unfold ret. now rewrite app_nil_r. }
    split; [exact E|]. now rewrite E.
  - intros Hok b c.
    assert (Hs : start (prof (final a)) <> time.zero) by now apply Start_ok_start.
    assert (He : end_ (prof (final a)) = end_ (prof s)) by apply Start_keeps_end.
    split; [|split; [exact Ha|split; [apply Stop_log_calls|]]];
      [| split; [exact Hs | split; [exact He | intros Hz; split; congruence]]].
    + unfold Run, bind, invoke. subst c b. fold a.
      destruct a as [[r s1] l1]. unfold result, final, log in *.
      cbn [fst snd] in *. subst r.
      destruct (f s1) as [[u s2] l2]. cbn [fst snd].
      destruct (Stop s2) as [[r3 s3] l3]. reflexivity.
Qed.

Lemma Run_spec_witness :
  result (Start "demo" (mkSt p0 (failing_at 1))) = Some (Foreign (ErrIO 28)) /\
  Run "demo" skip (mkSt p0 (failing_at 1))
    = (Some (Foreign (ErrIO 28)),
       final (Start "demo" (mkSt p0 (failing_at 1))),
       log (Start "demo" (mkSt p0 (failing_at 1)))) /\
  result (Start "demo" boot) = None /\
  log (Run "demo" skip boot) = log (Start "demo" boot) ++ [EvWork] /\
  result (Run "demo" skip boot) = Some ErrNotStarted.
Proof.
  assert (H1 : result (Start "demo" (mkSt p0 (failing_at 1)))
               = Some (Foreign (ErrIO 28))) by (vm_compute; reflexivity).
  assert (H2 : result (Start "demo" boot) = None) by (vm_compute; reflexivity).
  destruct (Run_spec "demo" skip (mkSt p0 (failing_at 1))) as [F _].
  destruct (Run_spec "demo" skip boot) as [_ G].
  destruct (F _ H1) as [F1 _]. destruct (G H2) as [G1 _].
  split; [exact H1|]. split; [exact F1|]. split; [exact H2|].
  rewrite G1. split; vm_compute; reflexivity.
Defined.

(** *** The two clock readings *)

(** The order of the clock readings.  [Start] writes [start] as its last
    step, from a clock reading made after the four files were created,
    the CPU profile and the trace were started and the block profile
    rate was set, all with success; a
    [Start] that returns an error leaves [start] as it was.  [Stop], once
    past its guard, reads the clock before any other runtime call and
    writes that reading to [end]; a [Stop] turned away by the guard does
    nothing.  So neither setup nor teardown falls between the two
    readings. *)
Theorem timestamps_bracket_session (name : string) (s : St) :
  let a := Start name s in
  let b := Stop s in
  (result a = None ->
     exists L t l,
       log a = l ++ [Ev TimeNow (Instant t)] /\
       start (prof (final a)) = t /\
       Forall succeeded l /\
       calls l = (if String.eqb name "" then [TimeNow] else [])
                 ++ setup L (prof (final a)))
  /\ (result a <> None -> start (prof (final a)) = start (prof s))
  /\ (started (prof s) = true ->
       exists t l,
         log b = Ev TimeNow (Instant t) :: l /\
         end_ (prof (final b)) = t /\
         ~ In TimeNow (calls l))
  /\ (started (prof s) = false -> log b = [] /\ final b = s).
Proof.
  intros a b. split; [|split; [|split]].
  - subst a. unfold_go. destruct (started (prof s)); [discriminate|].
    destruct (String.eqb name ""); cbn; repeat rt_step; try discriminate; intros _;
      match goal with
      | |- exists _ _ _, ?lst = _ /\ _ => eexists _, _, (removelast lst)
      end; cbn; (split; [reflexivity|]); (split; [reflexivity|]);
      (split; [repeat constructor | reflexivity]).
  - subst a. unfold_go. destruct (started (prof s)); [reflexivity|].
    destruct (String.eqb name ""); cbn; repeat rt_step; congruence.
  - intros G. subst b. unfold_go. rewrite G. cbn.
    repeat rt_step; eexists _, _; (split; [reflexivity|]);
      (split; [reflexivity|]); cbn; intuition discriminate.
  - intros G. subst b. rewrite (Stop_unstarted _ G). auto.
Qed.

Lemma timestamps_bracket_session_witness :
  (exists l, log (Start "demo" boot)
             = l ++ [Ev TimeNow (Instant (start (prof (final (Start "demo" boot)))))]) /\
  (exists l, log (Stop ended)
             = Ev TimeNow (Instant (end_ (prof (final (Stop ended))))) :: l).
Proof.
  destruct (timestamps_bracket_session "demo" boot) as (A & _ & _ & _).
  destruct (timestamps_bracket_session "demo" ended) as (_ & _ & B & _).
  split.
  - destruct (A eq_refl) as (L & t & l & Hl & Ht & _). exists l. now rewrite Ht.
  - destruct (B eq_refl) as (t & l & Hl & Ht & _). exists l. now rewrite Ht.
Defined.

(** C6, evaluated.  In a fresh process [Start("demo")] succeeds and writes
    [start] from its last runtime call, the clock read that follows the
    setup.  The [Stop] that follows is turned away by the guard: it reads
    no clock and writes no [end].  The duration that the package then
    reports is the zero time less the start time, cut off at the least
    [Duration]: it is negative and measures nothing of the session. *)
Theorem Start_Stop_duration_demo :
  let a := Start "demo" boot in
  let b := Stop (final a) in
  result a = None /\
  (exists l, log a = l ++ [Ev TimeNow (Instant (start (prof (final a))))]) /\
  start (prof (final a)) = epoch2026 + 7000 /\
  result b = Some ErrNotStarted /\
  log b = [] /\
  end_ (prof (final b)) = time.zero /\
  duration (prof (final b)) = time.minDuration /\
  duration (prof (final b)) < 0.
Proof.
  cbv zeta. split; [vm_compute; reflexivity|].
  split; [exists (removelast (log (Start "demo" boot))); vm_compute; reflexivity|].
  repeat split; vm_compute; reflexivity.
Qed.

(** *** Opening the sinks *)

(** C5. When one of the [os.Create] calls of [Start] fails, [Start]
    returns that error and the failed call is its last runtime call: the
    paths tried are the first [k+1] of the four sink names, nothing but
    file creation (and the clock read for a default label) has been
    called, in particular no file has been closed.  Every file object
    opened before the failure is still open on its path and is held in
    [p], and [start] is as it was: unset when it was unset. *)
Theorem Start_sink_open_failure (name n : string) (e : ext_error) (s : St) :
  let a := Start name s in
  In (Ev (OsCreate n) (Failed e)) (log a) ->
  result a = Some (Foreign e) /\
  (exists l, log a = l ++ [Ev (OsCreate n) (Failed e)] /\ Forall succeeded l) /\
  (exists L k, label_of name (log a) L /\ (k < 4)%nat /\
               attempted (log a) = take (S k) (sinkNames L)) /\
  (forall c o, In (Ev c o) (log a) -> c = TimeNow \/ exists n', c = OsCreate n') /\
  (forall n' h, In (Ev (OsCreate n') (Opened (Some h))) (log a) ->
     fdtab (world (final a)) !! h = Some n' /\
     In (Some h) [cpu (prof (final a)); block (prof (final a)); trace (prof (final a))]) /\
  start (prof (final a)) = start (prof s) /\
  (start (prof s) = time.zero -> start (prof (final a)) = time.zero).
Proof.
  intros a. subst a. unfold label_of. unfold_go.
  destruct (started (prof s)); [intros []|].
  destruct (String.eqb name ""); cbn; repeat rt_step; intros H.
  all: try (exfalso; intuition discriminate).
  all: decompose [or] H; try discriminate; try contradiction;
    match goal with
    | H : Ev _ _ = Ev _ (Failed _) |- _ => injection H as <- <-
    end.
  all: split; [reflexivity|].
  all: split;
    [ match goal with
      | |- exists _, ?lst = _ /\ _ =>
          exists (removelast lst); split; [reflexivity | repeat constructor]
      end |].
  all: split;
    [ eexists _, _;
      (split; [first [reflexivity | eexists _, _; split; reflexivity] |]);
      match goal with
      | |- _ /\ ?l = _ :: take ?k _ =>
          let n := eval cbn in (pred (length l)) in unify k n
      end; (split; [lia | reflexivity]) |].
  all: split;
    [ intros c o Hin; decompose [or] Hin; try contradiction;
      match goal with
      | H : Ev _ _ = Ev _ _ |- _ => injection H as <- <-
      end; eauto |].
  all: split; [| split; [reflexivity | tauto]].
  all: intros n' h Hin; decompose [or] Hin; try discriminate; try contradiction.
  all: match goal with
       | H : Ev _ _ = Ev _ (Opened (Some _)) |- _ => injection H as <- ->
       end.
  all: split; [| cbn; tauto].
  all: rt_facts; simplify_eq; rt_rewind.
  all: repeat (rewrite lookup_insert_ne by lia); apply lookup_insert_eq.
Qed.

Lemma Start_sink_open_failure_witness :
  In (Ev (OsCreate "demo.trace.out") (Failed (ErrIO 28)))
     (log (Start "demo" (mkSt p0 (failing_at 2)))) /\
  result (Start "demo" (mkSt p0 (failing_at 2))) = Some (Foreign (ErrIO 28)) /\
  attempted (log (Start "demo" (mkSt p0 (failing_at 2))))
    = ["demo.cpu.pprof"; "demo.block.prof"; "demo.trace.out"] /\
  start (prof (final (Start "demo" (mkSt p0 (failing_at 2))))) = time.zero.
Proof.
  assert (H : In (Ev (OsCreate "demo.trace.out") (Failed (ErrIO 28)))
                 (log (Start "demo" (mkSt p0 (failing_at 2)))))
    by (vm_compute; auto 10).
  destruct (Start_sink_open_failure "demo" _ _ _ H) as (R & _ & _ & _ & _ & _ & Z).
  split; [exact H|]. split; [exact R|]. split; [vm_compute; reflexivity|].
  apply Z. reflexivity.
Defined.

(** A file that has just been created is empty, also when others were
    created after it. *)
Lemma lookup_created (D : gmap string (list Blob)) (c b t h n : string) :
  In n [c; b; t; h] ->
  <[h:=[]]> (<[t:=[]]> (<[b:=[]]> (<[c:=[]]> D))) !! n = Some [].
Proof.
  intros H. rewrite !lookup_insert. repeat case_decide; try reflexivity.
  cbn in H. intuition congruence.
Qed.

(** C7. When the guard lets [Start] through and no [os.Create] fails,
    [Start] calls [os.Create] on exactly the four paths [L.cpu.pprof],
    [L.block.prof], [L.trace.out] and [L.heap.prof], in this order.  [L]
    is the label it was given when that is not empty.  For the empty
    label the first runtime call is a clock read, and [L] is [goprof-]
    followed by the decimal Unix time of that reading in nanoseconds (the
    reading less 62135596800 seconds, when that fits [int64]); it is
    never empty.  The four file objects are held in [p], each open on its
    path.  Each of the four files exists and has lost what it held
    before: it is empty, or, for the trace file, holds nothing but the
    header that the trace started by this call has written. *)
Theorem Start_opens_four_sinks (name : string) (s : St) :
  let a := Start name s in
  started (prof s) = false ->
  (forall n e, ~ In (Ev (OsCreate n) (Failed e)) (log a)) ->
  exists L,
    label_of name (log a) L /\
    (name <> "" -> L = name) /\
    (name = "" ->
       let t := Z.pos (clock (world s) (ticks (world s))) in
       (exists l', log a = Ev TimeNow (Instant t) :: l') /\
       L = "goprof-" +:+ pretty (time.UnixNano t) /\
       (- 2 ^ 63 <= t - 62135596800 * 10 ^ 9 < 2 ^ 63 ->
        L = "goprof-" +:+ pretty (t - 62135596800 * 10 ^ 9)) /\
       L <> "") /\
    attempted (log a)
      = [L +:+ ".cpu.pprof"; L +:+ ".block.prof"; L +:+ ".trace.out"; L +:+ ".heap.prof"] /\
    (exists h1 h2 h3 h4,
       cpu (prof (final a)) = Some h1 /\ block (prof (final a)) = Some h2 /\
       trace (prof (final a)) = Some h3 /\ heap (prof (final a)) = Some h4 /\
       (fun h => fdtab (world (final a)) !! h) <$> [h1; h2; h3; h4]
         = Some <$> sinkNames L) /\
    Forall (fun n => exists c, disk (world (final a)) !! n = Some c /\
                      (c = [] \/ (n = traceName L /\ c = [TraceData])))
           (sinkNames L).
Proof.
  intros a G. subst a. unfold label_of. unfold_go. rewrite G.
  destruct (String.eqb_spec name "") as [-> | Hne]; cbn; repeat rt_step; intros H.
  all: try (exfalso; eapply H; cbn; eauto 10; fail).
  all: clear H; eexists;
    (split; [first [reflexivity | eexists _, _; split; reflexivity] |]).
  all: split; [first [reflexivity | intros []; reflexivity] |].
  all: split;
    [ first
        [ intros E; contradiction
        | intros _;
          match goal with
          | H : rt.Now (world _) = _ |- _ => apply Now_eq in H as [-> ->]
          end;
          split; [eexists; reflexivity |];
          split; [reflexivity |];
          split; [| intros E; inversion E];
          intros R; unfold defaultName, time.UnixNano, time.wrap64;
          change time.unixToInternal with 62135596800;
          rewrite Z.mod_small by lia; do 2 f_equal; lia ] |].
  all: split; [reflexivity|].
  all: rt_facts; simplify_eq.
  all: split;
    [ eexists _, _, _, _; do 4 (split; [reflexivity|]); cbn; rt_rewind;
      repeat first [rewrite lookup_insert_eq | rewrite lookup_insert_ne by lia];
      reflexivity |].
  all: try match goal with
         | H : _ \/ _ |- _ => destruct H as [H | (h & path & Hf & Hp & H)]
         end.
  all: simplify_eq.
  all: try (revert Hp; rt_rewind;
            repeat first [rewrite lookup_insert_eq | rewrite lookup_insert_ne by lia];
            intros [= <-]; simplify_eq).
  all: repeat constructor; rt_rewind.
  all: first
    [ exists []; split; [apply lookup_created; cbn; tauto | left; reflexivity]
    | rewrite (lookup_created _ _ _ _ _ (traceName _)) by (cbn; tauto);
      rewrite lookup_insert; case_decide;
      [ exists [TraceData]; split; [reflexivity | right; split; congruence]
      | exists []; split; [apply lookup_created; cbn; tauto | left; reflexivity] ] ].
Qed.

Lemma Start_opens_four_sinks_witness :
  started (prof boot) = false /\
  (forall n e, ~ In (Ev (OsCreate n) (Failed e)) (log (Start "demo" boot))) /\
  attempted (log (Start "demo" boot))
    = ["demo.cpu.pprof"; "demo.block.prof"; "demo.trace.out"; "demo.heap.prof"] /\
  attempted (log (Start "" boot))
    = ["goprof-1793000000000000000.cpu.pprof"; "goprof-1793000000000000000.block.prof";
       "goprof-1793000000000000000.trace.out"; "goprof-1793000000000000000.heap.prof"].
Proof.
  assert (G : started (prof boot) = false) by reflexivity.
  assert (H : forall n e, ~ In (Ev (OsCreate n) (Failed e)) (log (Start "demo" boot))).
  { intros n e Hin. vm_compute in Hin. intuition discriminate. }
  assert (H' : forall n e, ~ In (Ev (OsCreate n) (Failed e)) (log (Start "" boot))).
  { intros n e Hin. vm_compute in Hin. intuition discriminate. }
  destruct (Start_opens_four_sinks "demo" boot G H) as (L & _ & HL & _ & Hatt & _).
  destruct (Start_opens_four_sinks "" boot G H') as (L' & _ & _ & HL' & Hatt' & _).
  rewrite HL in Hatt by discriminate.
  destruct (HL' eq_refl) as (_ & _ & E & _).
  rewrite E in Hatt' by (vm_compute; split; [discriminate | reflexivity]).
  split; [exact G|]. split; [exact H|]. split; [exact Hatt|].
  rewrite Hatt'. vm_compute. reflexivity.
Defined.

(** *** Teardown *)



(** * Further properties of the package *)

(** ** File names *)

Lemma list_ascii_of_string_app (a b : string) :
  String.list_ascii_of_string (a +:+ b) = String.list_ascii_of_string a ++ String.list_ascii_of_string b.
Proof.
  induction a as [|c a IH]; [reflexivity|].
  change (String c a +:+ b) with (String c (a +:+ b)). cbn. f_equal. exact IH.
Qed.

Lemma list_ascii_of_string_inj (a b : string) :
  String.list_ascii_of_string a = String.list_ascii_of_string b -> a = b.
Proof.
  intros H. rewrite <- (String.string_of_list_ascii_of_string a),
    <- (String.string_of_list_ascii_of_string b). now rewrite H.
Qed.

(** Two strings that end in suffixes of the same length are equal only
    when the suffixes and the rests are. *)
Lemma append_inj_2 (a b s1 s2 : string) :
  String.length s1 = String.length s2 ->
  a +:+ s1 = b +:+ s2 -> a = b /\ s1 = s2.
Proof.
  intros Hlen H. apply (f_equal String.list_ascii_of_string) in H.
  rewrite !list_ascii_of_string_app in H.
  apply app_inj_2 in H as [Ha Hs].
  - split; now apply list_ascii_of_string_inj.
  - clear H. revert s2 Hlen. induction s1 as [|c s1 IH]; intros [|d s2]; cbn;
      try discriminate; [reflexivity|]. intros [= Hl]. f_equal. now apply IH.
Qed.

(** The block profile's suffix is one character longer than the others. *)
Lemma blockName_split (a : string) : blockName a = (a +:+ ".") +:+ "block.prof".
Proof.
  unfold blockName. induction a as [|c a IH]; [reflexivity|].
  change (String c a +:+ ".block.prof") with (String c (a +:+ ".block.prof")).
  rewrite IH. reflexivity.
Qed.

(** A path is a sink name of one label only. *)
Lemma sinkNames_label (a b n : string) :
  In n (sinkNames a) -> In n (sinkNames b) -> a = b.
Proof.
  unfold sinkNames. cbn [In]. rewrite !blockName_split.
  unfold cpuName, traceName, heapName.
  intros Ha Hb. decompose [or] Ha; decompose [or] Hb; try contradiction; subst n.
  all: match goal with
       | H : _ +:+ _ = _ +:+ _ |- _ =>
           apply append_inj_2 in H; [destruct H as [H1 H2] | reflexivity]
       end; try discriminate H2; try congruence.
  all: apply append_inj_2 in H1; [symmetry; exact (proj1 H1) | reflexivity].
Qed.

(** X1. The four files of a session are four different paths, and the
    files of two sessions have a path in common only when the two labels
    are the same: whatever the labels, [a.cpu.pprof] is never
    [b.block.prof], and so on. *)
Theorem sink_paths_distinct (a b : string) :
  NoDup [cpuName a; blockName a; traceName a; heapName a] /\
  ((exists n, In n (sinkNames a) /\ In n (sinkNames b)) <-> a = b).
Proof.
  split.
  - unfold cpuName, blockName, traceName, heapName.
    repeat constructor; rewrite ?elem_of_cons, ?elem_of_nil;
      intros H; decompose [or] H; try contradiction;
      match goal with
      | H : _ +:+ _ = _ +:+ _ |- _ => apply String.app_inj in H; discriminate H
      end.
  - split.
    + intros (n & Ha & Hb). exact (sinkNames_label a b n Ha Hb).
    + intros ->. exists (cpuName b). split; left; reflexivity.
Qed.

(** X2. The default label is never empty, and two clock readings whose
    Unix time in nanoseconds fits [int64] give the same default label only
    when they are the same reading. *)
Theorem defaultName_inj (t1 t2 : time.Time) :
  - 2 ^ 63 <= t1 - time.unixToInternal * 10 ^ 9 < 2 ^ 63 ->
  - 2 ^ 63 <= t2 - time.unixToInternal * 10 ^ 9 < 2 ^ 63 ->
  defaultName t1 <> "" /\
  (defaultName t1 = defaultName t2 -> t1 = t2).
Proof.
  intros R1 R2. split; [intros H; inversion H|].
  unfold defaultName. intros H%String.app_inj. apply (inj pretty) in H.
  unfold time.UnixNano, time.wrap64 in H.
  rewrite !Z.mod_small in H by lia. lia.
Qed.

Lemma defaultName_inj_witness :
  defaultName (epoch2026 + 1000) <> "" /\
  (defaultName (epoch2026 + 1000) = defaultName (epoch2026 + 2000) ->
   epoch2026 + 1000 = epoch2026 + 2000).
Proof.
  apply defaultName_inj; vm_compute; (split; [discriminate | reflexivity]).
Defined.

(** ** The guard, from both sides *)

(** X3. [Start] returns [ErrAlreadyStarted] exactly in the Closed state,
    where both timestamps are set; it then makes no runtime call and
    leaves the state as it is. *)
Theorem Start_AlreadyStarted_iff (name : string) (s : St) :
  (result (Start name s) = Some ErrAlreadyStarted <-> Closed (prof s)) /\
  (result (Start name s) = Some ErrAlreadyStarted ->
   final (Start name s) = s /\ log (Start name s) = []).
Proof.
  assert (A : Closed (prof s) -> Start name s = (Some ErrAlreadyStarted, s, [])).
  { intros H%started_true. unfold Start, bind, get_p, ret. now rewrite H. }
  assert (B : result (Start name s) = Some ErrAlreadyStarted -> Closed (prof s)).
  { intros H. apply started_true. destruct (started (prof s)) eqn:G; [reflexivity|].
    destruct (Start_unstarted_result name s G) as [E | [x E]]; congruence. }
  split; [split; [exact B | intros H; now rewrite (A H)] |].
  intros H. rewrite (A (B H)). auto.
Qed.

(** X4. [Stop] returns [ErrNotStarted] exactly when the state is not
    Closed: in the Idle state, and also in the Active state that a
    successful [Start] leaves. *)
Theorem Stop_NotStarted_iff (s : St) :
  (result (Stop s) = Some ErrNotStarted <-> ~ Closed (prof s)) /\
  (Active (prof s) -> Stop s = (Some ErrNotStarted, s, [])).
Proof.
  split; [split|].
  - intros H C%started_true.
    destruct (Stop_started_result s C) as [E | [x E]]; congruence.
  - intros H. rewrite Stop_unstarted; [reflexivity|].
    destruct (started (prof s)) eqn:G; [|reflexivity].
    apply started_true in G. contradiction.
  - intros H. apply Stop_unstarted. now apply started_Active.
Qed.

Lemma Stop_NotStarted_iff_witness :
  Active (prof (final (Start "demo" boot))) /\
  Stop (final (Start "demo" boot))
    = (Some ErrNotStarted, final (Start "demo" boot), []).
Proof.
  assert (H : Active (prof (final (Start "demo" boot))))
    by (split; vm_compute; [discriminate | reflexivity]).
  split; [exact H | exact (proj2 (Stop_NotStarted_iff _) H)].
Defined.

Lemma Start_AlreadyStarted_iff_witness :
  Closed (prof ended) /\ result (Start "demo" ended) = Some ErrAlreadyStarted /\
  final (Start "demo" ended) = ended.
Proof.
  assert (H : Closed (prof ended)) by (split; vm_compute; discriminate).
  destruct (Start_AlreadyStarted_iff "demo" ended) as [[_ A] B].
  split; [exact H|]. split; [exact (A H) | exact (proj1 (B (A H)))].
Defined.

(** ** What a client can reach *)

(** Every runtime call of [Start] is one of its setup calls. *)
Lemma Start_log_setup (name : string) (s : St) :
  Forall (fun c => is_setup c = true) (calls (log (Start name s))).
Proof.
  unfold_go. destruct (started (prof s)); [constructor|].
  destruct (String.eqb name ""); cbn; repeat rt_step; repeat constructor.
Qed.



(** X6. Whatever sequence of [Start] and [Stop] calls a client makes from
    a state whose [end] is unset, [end] stays unset, every [Stop] in the
    sequence returns [ErrNotStarted], and the only runtime calls made are
    setup calls of [Start]: no profile is stopped or written and no file
    is closed. *)
Theorem script_never_ends (ops : list Op) (s : St) :
  end_ (prof s) = time.zero ->
  end_ (prof (final (script ops s))) = time.zero /\
  length (result (script ops s)) = length ops /\
  (forall i, ops !! i = Some OpStop ->
             result (script ops s) !! i = Some (Some ErrNotStarted)) /\
  Forall (fun c => is_setup c = true) (calls (log (script ops s))).
Proof.
  revert s. induction ops as [|o ops IH]; intros s Hs.
  - cbn. repeat split; [assumption | intros i; rewrite lookup_nil; discriminate | constructor].
  - cbn [script]. unfold bind, ret.
    assert (Ho : end_ (prof (final (step o s))) = time.zero /\
                 (o = OpStop -> result (step o s) = Some ErrNotStarted) /\
                 Forall (fun c => is_setup c = true) (calls (log (step o s)))).
    { destruct o as [name|]; cbn [step].
      - split; [now rewrite Start_keeps_end|]. split; [discriminate|].
        apply Start_log_setup.
      - rewrite Stop_unstarted by now apply started_false_end.
        cbn. repeat split; [assumption | constructor]. }
    destruct (step o s) as [[e s1] l1]. unfold result, final, log in *.
    cbn [fst snd] in *. destruct Ho as (H1 & H2 & H3).
    specialize (IH s1 H1). destruct (script ops s1) as [[es s2] l2].
    cbn [fst snd] in *. destruct IH as (I1 & I2 & I3 & I4).
    rewrite app_nil_r. repeat split.
    + exact I1.
    + cbn. now rewrite I2.
    + intros [|i]; cbn.
      * intros [= ->]. now rewrite H2.
      * apply I3.
    + unfold calls in *. rewrite omap_app. apply Forall_app. split; assumption.
Qed.

Lemma script_never_ends_witness :
  result (script [OpStart "demo"; OpStop; OpStart "demo"; OpStop] boot)
    = [None; Some ErrNotStarted; Some (Foreign ErrCPUInUse); Some ErrNotStarted] /\
  end_ (prof (final (script [OpStart "demo"; OpStop; OpStart "demo"; OpStop] boot)))
    = time.zero.
Proof.
  destruct (script_never_ends [OpStart "demo"; OpStop; OpStart "demo"; OpStop] boot)
    as (A & _ & _ & _); [reflexivity|].
  split; [vm_compute; reflexivity | exact A].
Defined.

(** ** The profilers of the runtime *)

(** What a runtime call does to the running profiles and to the block
    profile rate. *)
Lemma os_Create_env (w w' : World) name r : rt.os_Create name w = (r, w') ->
  cpuprof w' = cpuprof w /\ tracer w' = tracer w /\ blockrate w' = blockrate w.
Proof.
  unfold rt.os_Create. destruct (fault w (ticks w)); intros [= <- <-]; auto.
Qed.

Lemma Now_env (w w' : World) t : rt.Now w = (t, w') ->
  cpuprof w' = cpuprof w /\ tracer w' = tracer w /\ blockrate w' = blockrate w.
Proof. unfold rt.Now. intros [= <- <-]; auto. Qed.

Lemma Write_env (w w' : World) b f r : rt.Write b f w = (r, w') ->
  cpuprof w' = cpuprof w /\ tracer w' = tracer w /\ blockrate w' = blockrate w.
Proof.
  unfold rt.Write. repeat case_match; intros [= <- <-]; auto.
Qed.

Lemma StartCPUProfile_ok (w w' : World) f : rt.StartCPUProfile f w = (None, w') ->
  cpuprof w = None /\ cpuprof w' = Some f /\
  tracer w' = tracer w /\ blockrate w' = blockrate w.
Proof.
  unfold rt.StartCPUProfile. destruct (cpuprof w) eqn:E; intros [= <-]; auto.
Qed.

Lemma StartCPUProfile_err (w w' : World) f e : rt.StartCPUProfile f w = (Some e, w') ->
  e = ErrCPUInUse /\ cpuprof w' = cpuprof w /\
  tracer w' = tracer w /\ blockrate w' = blockrate w.
Proof.
  unfold rt.StartCPUProfile. destruct (cpuprof w) eqn:E; intros [= <- <-]; auto.
Qed.

Lemma TraceStart_ok (w w' : World) f : rt.TraceStart f w = (None, w') ->
  tracer w = None /\ tracer w' = Some f /\
  cpuprof w' = cpuprof w /\ blockrate w' = blockrate w.
Proof.
  unfold rt.TraceStart. destruct (tracer w) eqn:E; intros [= <-]; auto.
  destruct (rt.Write TraceData f w) as [r' w1] eqn:EW.
  apply Write_env in EW. cbn. tauto.
Qed.

Lemma TraceStart_err (w w' : World) f e : rt.TraceStart f w = (Some e, w') ->
  e = ErrTraceInUse /\ tracer w' = tracer w /\
  cpuprof w' = cpuprof w /\ blockrate w' = blockrate w.
Proof.
  unfold rt.TraceStart. destruct (tracer w) eqn:E; intros [= <- <-]; auto.
Qed.

Lemma SetBlockProfileRate_env (w w' : World) n r :
  rt.SetBlockProfileRate n w = (r, w') ->
  cpuprof w' = cpuprof w /\ tracer w' = tracer w /\ blockrate w' = n.
Proof. unfold rt.SetBlockProfileRate. intros [= <- <-]; auto. Qed.

Lemma Close_env (w w' : World) f r : rt.Close f w = (r, w') ->
  cpuprof w' = cpuprof w /\ tracer w' = tracer w /\ blockrate w' = blockrate w /\
  disk w' = disk w.
Proof.
  unfold rt.Close. repeat case_match; intros [= <- <-]; auto.
Qed.

Lemma StopCPUProfile_env (w w' : World) r : rt.StopCPUProfile w = (r, w') ->
  cpuprof w' = None /\ tracer w' = tracer w /\ blockrate w' = blockrate w.
Proof.
  unfold rt.StopCPUProfile. destruct (cpuprof w) as [f|] eqn:E; intros [= <- <-]; auto.
  destruct (rt.Write CPUProfile f w) as [r' w1] eqn:EW.
  apply Write_env in EW. cbn. tauto.
Qed.

Lemma TraceStop_env (w w' : World) r : rt.TraceStop w = (r, w') ->
  tracer w' = None /\ cpuprof w' = cpuprof w /\ blockrate w' = blockrate w.
Proof.
  unfold rt.TraceStop. destruct (tracer w) as [f|] eqn:E; intros [= <- <-]; auto.
  destruct (rt.Write TraceData f w) as [r' w1] eqn:EW.
  apply Write_env in EW. cbn. tauto.
Qed.

(** A successful [Close] was made on an open file object, which is gone
    from the file table afterwards. *)
Lemma Close_ok (w w' : World) f : rt.Close f w = (None, w') ->
  exists h, f = Some h /\ is_Some (fdtab w !! h) /\ fdtab w' = delete h (fdtab w).
Proof.
  unfold rt.Close. destruct f as [h|]; [|discriminate].
  destruct (fdtab w !! h) eqn:E; [|discriminate].
  intros [= _ <-]. exists h. cbn. eauto.
Qed.

(** A successful [Write] was made on an open file object and has put
    the profile into its file. *)
Lemma Write_ok (w w' : World) b f : rt.Write b f w = (None, w') ->
  exists h path, f = Some h /\ fdtab w !! h = Some path /\ holds w' path b.
Proof.
  unfold rt.Write. destruct f as [h|]; [|discriminate].
  destruct (fdtab w !! h) as [path|] eqn:E; [|discriminate].
  destruct (fault w (ticks w)); [discriminate|]. intros [= <-].
  exists h, path. split; [reflexivity|]. split; [exact E|].
  eexists. cbn. rewrite lookup_insert_eq. split; [reflexivity|].
  apply in_or_app. right. now left.
Qed.

(** Writing only adds to files. *)
Lemma Write_holds (w w' : World) b f r path b' : rt.Write b f w = (r, w') ->
  holds w path b' -> holds w' path b'.
Proof.
  unfold rt.Write, holds. repeat case_match; intros [= <- <-]; cbn; auto.
  intros (c & Hc & Hin). rewrite lookup_insert. case_decide; [subst|eauto].
  eexists; split; [reflexivity|]. rewrite Hc. cbn. apply in_or_app. now left.
Qed.

Lemma Close_holds (w w' : World) f r path b : rt.Close f w = (r, w') ->
  holds w path b -> holds w' path b.
Proof.
  intros H. apply Close_env in H as (_ & _ & _ & H). unfold holds. now rewrite H.
Qed.

(** ** A [Stop] that succeeds *)

(** Everything a successful [Stop] has done. *)
Lemma Stop_ok_facts (s : St) :
  result (Stop s) = None ->
  exists hc hb ht hh pb ph,
    (cpu (prof s) = Some hc /\ block (prof s) = Some hb /\
     trace (prof s) = Some ht /\ heap (prof s) = Some hh) /\
    (fdtab (world s) !! hb = Some pb /\ fdtab (world s) !! hh = Some ph) /\
    (is_Some (fdtab (world s) !! hc) /\
     is_Some (delete hc (fdtab (world s)) !! hb) /\
     is_Some (delete hb (delete hc (fdtab (world s))) !! ht) /\
     is_Some (delete ht (delete hb (delete hc (fdtab (world s)))) !! hh)) /\
    fdtab (world (final (Stop s)))
      = delete hh (delete ht (delete hb (delete hc (fdtab (world s))))) /\
    (holds (world (final (Stop s))) pb BlockProfile /\
     holds (world (final (Stop s))) ph HeapProfile) /\
    (cpuprof (world (final (Stop s))) = None /\
     tracer (world (final (Stop s))) = None /\
     blockrate (world (final (Stop s))) = blockrate (world s)) /\
    prof (final (Stop s))
      = set_end (Z.pos (clock (world s) (ticks (world s)))) (prof s).
Proof.
  unfold_go. destruct (started (prof s)); [|discriminate]. cbn.
  repeat rt_step; try discriminate. intros _.
  pose proof (Now_fdtab _ _ _ Enow) as F0.
  pose proof (StopCPUProfile_fdtab _ _ _ Estopcpu) as F1.
  pose proof (TraceStop_fdtab _ _ _ Estoptrace) as F2.
  pose proof (BlockWriteTo_fdtab _ _ _ _ Eblock) as F3.
  pose proof (WriteHeapProfile_fdtab _ _ _ _ Eheap) as F4.
  pose proof (Now_env _ _ _ Enow) as (A0 & B0 & C0).
  pose proof (StopCPUProfile_env _ _ _ Estopcpu) as (A1 & B1 & C1).
  pose proof (TraceStop_env _ _ _ Estoptrace) as (B2 & A2 & C2).
  pose proof (Write_env _ _ _ _ _ Eblock) as (A3 & B3 & C3).
  pose proof (Write_env _ _ _ _ _ Eheap) as (A4 & B4 & C4).
  pose proof (Close_env _ _ _ _ Eclose) as (A5 & B5 & C5 & _).
  pose proof (Close_env _ _ _ _ Eclose0) as (A6 & B6 & C6 & _).
  pose proof (Close_env _ _ _ _ Eclose1) as (A7 & B7 & C7 & _).
  pose proof (Close_env _ _ _ _ Eclose2) as (A8 & B8 & C8 & _).
  destruct (Write_ok _ _ _ _ Eblock) as (hb & pb & Hb & Hpb & Hwb).
  destruct (Write_ok _ _ _ _ Eheap) as (hh & ph & Hh & Hph & Hwh).
  destruct (Close_ok _ _ _ Eclose) as (hc & Hc & Oc & Dc).
  destruct (Close_ok _ _ _ Eclose0) as (hb' & Hb' & Ob & Db).
  destruct (Close_ok _ _ _ Eclose1) as (ht & Ht & Ot & Dt).
  destruct (Close_ok _ _ _ Eclose2) as (hh' & Hh' & Oh & Dh).
  assert (hb' = hb) by congruence. assert (hh' = hh) by congruence. subst hb' hh'.
  exists hc, hb, ht, hh, pb, ph.
  assert (G3 : fdtab w3 = fdtab (world s)) by congruence.
  assert (G2 : fdtab w2 = fdtab (world s)) by congruence.
  assert (G1 : fdtab w1 = fdtab (world s)) by congruence.
  rewrite Dt, Db, Dc, G3 in Oh. rewrite Db, Dc, G3 in Ot. rewrite Dc, G3 in Ob.
  rewrite G3 in Oc. rewrite ?G2 in Hph. rewrite ?G1 in Hpb.
  split; [auto|]. split; [auto|]. split; [auto|].
  split; [now rewrite Dh, Dt, Db, Dc, G3|].
  split.
  - split.
    + eapply Close_holds; [exact Eclose2|]. eapply Close_holds; [exact Eclose1|].
      eapply Close_holds; [exact Eclose0|]. eapply Close_holds; [exact Eclose|].
      eapply Write_holds; [exact Eheap|]. exact Hwb.
    + eapply Close_holds; [exact Eclose2|]. eapply Close_holds; [exact Eclose1|].
      eapply Close_holds; [exact Eclose0|]. eapply Close_holds; [exact Eclose|].
      exact Hwh.
  - split; [| now rewrite (proj1 (Now_eq _ _ _ Enow))]. repeat split; congruence.
Qed.

(** X7. A [Stop] that returns no error was made on four different open
    file objects and has closed all four, leaving every other file object
    as it was; the CPU profile and the trace are stopped; the block
    profile rate is as [Start] set it, it is not reset. *)
Theorem Stop_ok_closes_sinks (s : St) :
  result (Stop s) = None ->
  let p := prof s in
  let w' := world (final (Stop s)) in
  Forall (fun f => exists h, f = Some h /\ is_Some (fdtab (world s) !! h) /\
                             fdtab w' !! h = None)
         [cpu p; block p; trace p; heap p] /\
  NoDup [cpu p; block p; trace p; heap p] /\
  (forall h, ~ In (Some h) [cpu p; block p; trace p; heap p] ->
             fdtab w' !! h = fdtab (world s) !! h) /\
  cpuprof w' = None /\ tracer w' = None /\
  blockrate w' = blockrate (world s).
Proof.
  intros H p w'. subst p w'.
  destruct (Stop_ok_facts s H)
    as (hc & hb & ht & hh & pb & ph & (Hc & Hb & Ht & Hh) & _ &
        (Oc & Ob & Ot & Oh) & F & _ & (P1 & P2 & P3) & _).
  rewrite Hc, Hb, Ht, Hh, F.
  apply lookup_delete_is_Some in Oh as [N1 Oh].
  apply lookup_delete_is_Some in Oh as [N2 Oh].
  apply lookup_delete_is_Some in Oh as [N3 Oh].
  apply lookup_delete_is_Some in Ot as [N4 Ot].
  apply lookup_delete_is_Some in Ot as [N5 Ot].
  apply lookup_delete_is_Some in Ob as [N6 Ob].
  split; [|split; [|split; [|auto]]].
  - repeat constructor; eexists; (split; [reflexivity|]); (split; [assumption|]);
      rewrite !lookup_delete; repeat case_decide; congruence.
  - repeat constructor; rewrite ?elem_of_cons, ?elem_of_nil; intros E;
      decompose [or] E; congruence.
  - intros h Hn. cbn in Hn. rewrite !lookup_delete.
    repeat case_decide; subst; try reflexivity; exfalso; apply Hn; auto.
Qed.

Lemma Stop_ok_closes_sinks_witness :
  result (Stop ended) = None /\
  fdtab (world (final (Stop ended))) !! 1%nat = None /\
  blockrate (world (final (Stop ended))) = 1.
Proof.
  assert (H : result (Stop ended) = None) by (vm_compute; reflexivity).
  destruct (Stop_ok_closes_sinks ended H) as (A & _ & _ & _ & _ & B).
  split; [exact H|]. split; [| rewrite B; reflexivity].
  apply Forall_cons in A as [_ A]. apply Forall_cons in A as [(h & E & _ & C) _].
  vm_compute in E. injection E as <-. exact C.
Defined.

(** X8. A [Stop] that returns no error has put the block profile into the
    file that the block sink was open on and the heap profile into the
    file that the heap sink was open on. *)
Theorem Stop_ok_writes_profiles (s : St) :
  result (Stop s) = None ->
  exists hb hh pb ph,
    block (prof s) = Some hb /\ fdtab (world s) !! hb = Some pb /\
    heap (prof s) = Some hh /\ fdtab (world s) !! hh = Some ph /\
    holds (world (final (Stop s))) pb BlockProfile /\
    holds (world (final (Stop s))) ph HeapProfile.
Proof.
  intros H.
  destruct (Stop_ok_facts s H)
    as (hc & hb & ht & hh & pb & ph & (_ & Hb & _ & Hh) & (Fb & Fh) & _ & _ &
        (W1 & W2) & _).
  exists hb, hh, pb, ph. repeat split; assumption.
Qed.

Lemma Stop_ok_writes_profiles_witness :
  result (Stop ended) = None /\
  holds (world (final (Stop ended))) "demo.block.prof" BlockProfile /\
  holds (world (final (Stop ended))) "demo.heap.prof" HeapProfile.
Proof.
  assert (H : result (Stop ended) = None) by (vm_compute; reflexivity).
  destruct (Stop_ok_writes_profiles ended H)
    as (hb & hh & pb & ph & Hb & Fb & Hh & Fh & W1 & W2).
  vm_compute in Hb, Hh. injection Hb as <-. injection Hh as <-.
  vm_compute in Fb, Fh. injection Fb as <-. injection Fh as <-.
  split; [exact H|]. split; [exact W1 | exact W2].
Defined.

(** A [Stop] that gets past its guard while the block sink is a closed
    file object stops at the block profile write. *)
Lemma Stop_block_closed (s : St) (hb : nat) :
  started (prof s) = true ->
  block (prof s) = Some hb -> fdtab (world s) !! hb = None ->
  result (Stop s) = Some (Foreign ErrClosed) /\
  end_ (prof (final (Stop s))) = Z.pos (clock (world s) (ticks (world s))) /\
  calls (log (Stop s)) = [TimeNow; StopCPUProfile; TraceStop; BlockWriteTo (Some hb)].
Proof.
  intros G Hb Hn. unfold_go. rewrite G. cbn.
  do 3 rt_step. rewrite Hb.
  pose proof (Now_fdtab _ _ _ Enow) as F0.
  pose proof (StopCPUProfile_fdtab _ _ _ Estopcpu) as F1.
  pose proof (TraceStop_fdtab _ _ _ Estoptrace) as F2.
  assert (E : rt.BlockWriteTo (Some hb) w1 = (Some ErrClosed, tick w1)).
  { unfold rt.BlockWriteTo, rt.Write. rewrite F2, F1, F0, Hn. reflexivity. }
  rewrite E. cbn. rewrite (proj1 (Now_eq _ _ _ Enow)). auto.
Qed.

(** X9. [Stop] cannot be repeated: after a [Stop] that returned no
    error, a further [Stop] passes the guard, overwrites [end] with a new
    clock reading, and fails with the runtime's file-already-closed error
    at the block profile write, before any [Close]. *)
Theorem Stop_twice (s : St) :
  result (Stop s) = None ->
  let s1 := final (Stop s) in
  result (Stop s1) = Some (Foreign ErrClosed) /\
  end_ (prof (final (Stop s1))) = Z.pos (clock (world s1) (ticks (world s1))) /\
  calls (log (Stop s1)) = [TimeNow; StopCPUProfile; TraceStop; BlockWriteTo (block (prof s))].
Proof.
  intros H s1. subst s1.
  assert (G : started (prof s) = true).
  { destruct (started (prof s)) eqn:G; [reflexivity|].
    rewrite (Stop_unstarted s G) in H. discriminate. }
  destruct (Stop_ok_facts s H)
    as (hc & hb & ht & hh & pb & ph & (_ & Hb & _ & _) & _ &
        (_ & Ob & _ & _) & F & _ & _ & P).
  rewrite Hb. apply Stop_block_closed.
  - rewrite P. apply started_true. apply started_true in G as [G1 G2].
    split; [exact G1 | discriminate].
  - rewrite P. exact Hb.
  - rewrite F. rewrite !lookup_delete. repeat case_decide; congruence.
Qed.

Lemma Stop_twice_witness :
  result (Stop ended) = None /\
  result (Stop (final (Stop ended))) = Some (Foreign ErrClosed).
Proof.
  assert (H : result (Stop ended) = None) by (vm_compute; reflexivity).
  split; [exact H | exact (proj1 (Stop_twice ended H))].
Defined.

(** ** A [Start] that gets past the files *)

(** What the outcome of a setup call says about the running profiles,
    next to what it says about the file table. *)
Ltac env_facts :=
  repeat match goal with
    | H : rt.os_Create _ _ = (inl _, _) |- _ =>
        pose proof (os_Create_env _ _ _ _ H);
        apply os_Create_inl in H; destruct H as (? & ? & ? & ?)
    | H : rt.os_Create _ _ = (inr _, _) |- _ =>
        pose proof (os_Create_env _ _ _ _ H);
        apply os_Create_inr in H; destruct H as (? & ? & ?)
    | H : rt.StartCPUProfile _ _ = (None, _) |- _ =>
        pose proof (StartCPUProfile_ok _ _ _ H);
        apply StartCPUProfile_files in H; destruct H as (? & ? & ?)
    | H : rt.StartCPUProfile _ _ = (Some _, _) |- _ =>
        pose proof (StartCPUProfile_err _ _ _ _ H);
        apply StartCPUProfile_files in H; destruct H as (? & ? & ?)
    | H : rt.TraceStart _ _ = (None, _) |- _ =>
        pose proof (TraceStart_ok _ _ _ H);
        apply TraceStart_files in H; destruct H as (? & ? & ?)
    | H : rt.TraceStart _ _ = (Some _, _) |- _ =>
        pose proof (TraceStart_err _ _ _ _ H);
        apply TraceStart_files in H; destruct H as (? & ? & ?)
    | H : rt.SetBlockProfileRate _ _ = _ |- _ =>
        pose proof (SetBlockProfileRate_env _ _ _ _ H);
        apply SetBlockProfileRate_files in H; destruct H as (? & ? & ?)
    | H : rt.Now _ = _ |- _ =>
        pose proof (Now_env _ _ _ H);
        apply Now_files in H; destruct H as (? & ? & ?)
    end; destruct_and?.

(** X10. A [Start] that returns no error found no CPU profile and no
    trace running, and has left the CPU profile running into the cpu
    sink, the trace running into the trace sink and the block profile
    rate at 1. *)
Theorem Start_ok_profilers (name : string) (s : St) :
  result (Start name s) = None ->
  let p' := prof (final (Start name s)) in
  let w' := world (final (Start name s)) in
  cpuprof (world s) = None /\ tracer (world s) = None /\
  cpuprof w' = Some (cpu p') /\ tracer w' = Some (trace p') /\
  blockrate w' = 1.
Proof.
  intros H p' w'. subst p' w'. revert H. unfold_go.
  destruct (started (prof s)); [discriminate|].
  destruct (String.eqb name ""); cbn; repeat rt_step; try discriminate; intros _.
  all: env_facts; repeat split; congruence.
Qed.

Lemma Start_ok_profilers_witness :
  result (Start "demo" boot) = None /\
  cpuprof (world (final (Start "demo" boot))) = Some (Some 0%nat) /\
  tracer (world (final (Start "demo" boot))) = Some (Some 2%nat) /\
  blockrate (world (final (Start "demo" boot))) = 1.
Proof.
  assert (H : result (Start "demo" boot) = None) by (vm_compute; reflexivity).
  destruct (Start_ok_profilers "demo" boot H) as (_ & _ & A & B & C).
  split; [exact H|]. split; [exact A|]. split; [exact B | exact C].
Defined.

(** X11. When [pprof.StartCPUProfile] fails in [Start], [Start] returns
    that error straight away: the trace is not started and the block
    profile rate is not set, [start] is as it was, and the four files
    that were just created stay open, held in [p]; none is closed. *)
Theorem Start_cpu_failure (name : string) (f : File) (e : ext_error) (s : St) :
  let a := Start name s in
  In (Ev (StartCPUProfile f) (Failed e)) (log a) ->
  result a = Some (Foreign e) /\
  (exists l, log a = l ++ [Ev (StartCPUProfile f) (Failed e)] /\ Forall succeeded l) /\
  f = cpu (prof (final a)) /\
  (exists L, label_of name (log a) L /\
     (fun o => h ← o; fdtab (world (final a)) !! h) <$>
       [cpu (prof (final a)); block (prof (final a));
        trace (prof (final a)); heap (prof (final a))]
     = Some <$> sinkNames L) /\
  tracer (world (final a)) = tracer (world s) /\
  blockrate (world (final a)) = blockrate (world s) /\
  start (prof (final a)) = start (prof s).
Proof.
  intros a. subst a. unfold label_of. unfold_go.
  destruct (started (prof s)); [intros []|].
  destruct (String.eqb name ""); cbn; repeat rt_step; intros H.
  all: try (exfalso; intuition discriminate).
  all: decompose [or] H; try discriminate; try contradiction;
    match goal with
    | H : Ev _ _ = Ev (StartCPUProfile _) _ |- _ => injection H as <- <-
    end.
  all: split; [reflexivity|].
  all: split;
    [ match goal with
      | |- exists _, ?lst = _ /\ _ =>
          exists (removelast lst); split; [reflexivity | repeat constructor]
      end |].
  all: split; [reflexivity|].
  all: env_facts; simplify_eq.
  all: split;
    [ eexists; (split; [first [reflexivity | eexists _, _; split; reflexivity] |]);
      cbn; rt_rewind;
      repeat first [rewrite lookup_insert_eq | rewrite lookup_insert_ne by lia];
      reflexivity |].
  all: repeat split; congruence.
Qed.

Lemma Start_cpu_failure_witness :
  In (Ev (StartCPUProfile (Some 4%nat)) (Failed ErrCPUInUse))
     (log (Start "again" (final (Start "demo" boot)))) /\
  result (Start "again" (final (Start "demo" boot))) = Some (Foreign ErrCPUInUse) /\
  tracer (world (final (Start "again" (final (Start "demo" boot)))))
    = Some (Some 2%nat).
Proof.
  assert (H : In (Ev (StartCPUProfile (Some 4%nat)) (Failed ErrCPUInUse))
                 (log (Start "again" (final (Start "demo" boot)))))
    by (vm_compute; auto 10).
  destruct (Start_cpu_failure "again" _ _ _ H) as (A & _ & _ & _ & B & _).
  split; [exact H|]. split; [exact A|]. rewrite B. vm_compute. reflexivity.
Defined.

(** X12. When [trace.Start] fails in [Start], [Start] returns that error
    straight away and undoes nothing: the CPU profile that this call has
    started stays running into the cpu sink, the four files stay open,
    held in [p], and [start] is as it was; the block profile rate is not
    set. *)
Theorem Start_trace_failure (name : string) (f : File) (e : ext_error) (s : St) :
  let a := Start name s in
  In (Ev (TraceStart f) (Failed e)) (log a) ->
  result a = Some (Foreign e) /\
  (exists l, log a = l ++ [Ev (TraceStart f) (Failed e)] /\ Forall succeeded l) /\
  f = trace (prof (final a)) /\
  cpuprof (world s) = None /\
  cpuprof (world (final a)) = Some (cpu (prof (final a))) /\
  (exists L, label_of name (log a) L /\
     (fun o => h ← o; fdtab (world (final a)) !! h) <$>
       [cpu (prof (final a)); block (prof (final a));
        trace (prof (final a)); heap (prof (final a))]
     = Some <$> sinkNames L) /\
  tracer (world (final a)) = tracer (world s) /\
  blockrate (world (final a)) = blockrate (world s) /\
  start (prof (final a)) = start (prof s).
Proof.
  intros a. subst a. unfold label_of. unfold_go.
  destruct (started (prof s)); [intros []|].
  destruct (String.eqb name ""); cbn; repeat rt_step; intros H.
  all: try (exfalso; intuition discriminate).
  all: decompose [or] H; try discriminate; try contradiction;
    match goal with
    | H : Ev _ _ = Ev (TraceStart _) _ |- _ => injection H as <- <-
    end.
  all: split; [reflexivity|].
  all: split;
    [ match goal with
      | |- exists _, ?lst = _ /\ _ =>
          exists (removelast lst); split; [reflexivity | repeat constructor]
      end |].
  all: split; [reflexivity|].
  all: env_facts; simplify_eq.
  all: split; [congruence|]. all: split; [congruence|].
  all: split;
    [ eexists; (split; [first [reflexivity | eexists _, _; split; reflexivity] |]);
      cbn; rt_rewind;
      repeat first [rewrite lookup_insert_eq | rewrite lookup_insert_ne by lia];
      reflexivity |].
  all: repeat split; congruence.
Qed.

Lemma Start_trace_failure_witness :
  In (Ev (TraceStart (Some 3%nat)) (Failed ErrTraceInUse))
     (log (Start "demo" (mkSt p0 tracing))) /\
  result (Start "demo" (mkSt p0 tracing)) = Some (Foreign ErrTraceInUse) /\
  cpuprof (world (final (Start "demo" (mkSt p0 tracing)))) = Some (Some 1%nat).
Proof.
  assert (H : In (Ev (TraceStart (Some 3%nat)) (Failed ErrTraceInUse))
                 (log (Start "demo" (mkSt p0 tracing))))
    by (vm_compute; auto 10).
  destruct (Start_trace_failure "demo" _ _ _ H) as (A & _ & _ & _ & B & _).
  split; [exact H|]. split; [exact A|]. rewrite B. vm_compute. reflexivity.
Defined.

(** ** The duration *)

(** A successful [Start] has set [start] to a clock reading. *)
Lemma Start_ok_start_pos (name : string) (s : St) :
  result (Start name s) = None -> 0 < start (prof (final (Start name s))).
Proof.
  unfold_go. destruct (started (prof s)); [discriminate|].
  destruct (String.eqb name ""); cbn; repeat rt_step; try discriminate;
    intros _;
    match goal with
    | H : rt.Now _ = (?t, _) |- 0 < ?t => apply Now_eq in H as [-> _]
    end; reflexivity.
Qed.

(** After a successful [Start] in a state whose [end] is unset, the
    [Stop] that follows leaves the timestamps as they are, and the
    duration is negative. *)
Lemma duration_after_Start_Stop (name : string) (s : St) :
  end_ (prof s) = time.zero ->
  result (Start name s) = None ->
  let a := Start name s in
  let b := Stop (final a) in
  result b = Some ErrNotStarted /\ log b = [] /\
  prof (final b) = prof (final a) /\
  duration (prof (final b)) = Z.max time.minDuration (- start (prof (final a))) /\
  duration (prof (final b)) < 0.
Proof.
  intros He Hr a b. subst a b.
  pose proof (Start_ok_start_pos name s Hr) as Hs.
  pose proof (Start_keeps_end name s) as Hk. rewrite He in Hk.
  generalize dependent (final (Start name s)). intros s1 Hs Hk.
  rewrite Stop_unstarted by now apply started_false_end.
  unfold result, final, log. cbn [fst snd].
  split; [reflexivity|]. split; [reflexivity|]. split; [reflexivity|].
  unfold duration, time.Sub. rewrite Hk.
  unfold time.zero, time.minDuration, time.maxDuration.
  repeat case_match; lia.
Qed.

(** X13. After a successful [Start] in a state whose [end] is unset, the
    duration that [Summarize] prints is negative: it is the negated start
    time, cut off at the least [Duration]. *)
Theorem duration_after_Start (name : string) (s : St) :
  end_ (prof s) = time.zero ->
  result (Start name s) = None ->
  let p' := prof (final (Start name s)) in
  duration p' = Z.max time.minDuration (- start p') /\ duration p' < 0.
Proof.
  intros He Hr p'. subst p'.
  pose proof (Start_ok_start_pos name s Hr) as Hs.
  pose proof (Start_keeps_end name s) as Hk. rewrite He in Hk.
  unfold duration, time.Sub. rewrite Hk. unfold time.zero, time.minDuration, time.maxDuration.
  repeat case_match; lia.
Qed.

Lemma duration_after_Start_witness :
  end_ (prof boot) = time.zero /\ result (Start "demo" boot) = None /\
  duration (prof (final (Start "demo" boot))) = time.minDuration.
Proof.
  assert (H : result (Start "demo" boot) = None) by (vm_compute; reflexivity).
  destruct (duration_after_Start "demo" boot eq_refl H) as [A _].
  split; [reflexivity|]. split; [exact H|]. rewrite A. vm_compute. reflexivity.
Defined.

(** ** Opening and closing the files *)

(** X14. In a process whose file table holds no file object numbered
    from [nextfd] on, a [setupFiles] and a [cleanupFiles] that both
    succeed give back the file table as it was: the four file objects
    opened are the four closed, no other is touched.  The four files
    exist and are empty, and [p] still holds the four closed file
    objects. *)
Theorem setupFiles_cleanupFiles (name : string) (s : St) :
  (forall h, (nextfd (world s) <= h)%nat -> fdtab (world s) !! h = None) ->
  result (setupFiles name s) = None ->
  let s1 := final (setupFiles name s) in
  result (cleanupFiles s1) = None ->
  fdtab (world (final (cleanupFiles s1))) = fdtab (world s) /\
  Forall (fun n => disk (world (final (cleanupFiles s1))) !! n = Some []) (sinkNames name) /\
  prof (final (cleanupFiles s1)) = prof s1 /\
  Forall (fun f => exists h, f = Some h /\ (nextfd (world s) <= h)%nat)
         [cpu (prof s1); block (prof s1); trace (prof s1); heap (prof s1)].
Proof.
  intros WF. unfold_go. cbn. repeat rt_step; try discriminate. intros _.
  repeat rt_step; try discriminate. intros _.
  destruct (Close_ok _ _ _ Eclose) as (h0 & E0 & _ & D0).
  destruct (Close_ok _ _ _ Eclose0) as (h1 & E1 & _ & D1).
  destruct (Close_ok _ _ _ Eclose1) as (h2 & E2 & _ & D2).
  destruct (Close_ok _ _ _ Eclose2) as (h3 & E3 & _ & D3).
  apply Close_env in Eclose as (_ & _ & _ & K0).
  apply Close_env in Eclose0 as (_ & _ & _ & K1).
  apply Close_env in Eclose1 as (_ & _ & _ & K2).
  apply Close_env in Eclose2 as (_ & _ & _ & K3).
  rt_facts. simplify_eq.
  split; [|split; [|split; [reflexivity|]]].
  - rewrite D3, D2, D1, D0. rt_rewind. apply map_eq. intros i.
    rewrite !lookup_delete, !lookup_insert.
    repeat case_decide; subst; try reflexivity; try lia; symmetry; apply WF; lia.
  - rewrite K3, K2, K1, K0. repeat constructor; rt_rewind; rewrite ?lookup_insert;
      repeat case_decide; congruence.
  - repeat constructor; eexists; (split; [reflexivity|]); rt_rewind; lia.
Qed.

Lemma setupFiles_cleanupFiles_witness :
  result (setupFiles "demo" boot) = None /\
  result (cleanupFiles (final (setupFiles "demo" boot))) = None /\
  fdtab (world (final (cleanupFiles (final (setupFiles "demo" boot))))) = ∅.
Proof.
  assert (H1 : result (setupFiles "demo" boot) = None) by (vm_compute; reflexivity).
  assert (H2 : result (cleanupFiles (final (setupFiles "demo" boot))) = None)
    by (vm_compute; reflexivity).
  assert (WF : forall h, (nextfd (world boot) <= h)%nat -> fdtab (world boot) !! h = None)
    by (intros h _; apply lookup_empty).
  destruct (setupFiles_cleanupFiles "demo" boot WF H1 H2) as (A & _).
  split; [exact H1|]. split; [exact H2 | exact A].
Defined.

(** ** The printed commands *)

(** The file names are what [fmt.Sprintf] makes of the formats of the
    source. *)
Lemma names_Sprintf (name : string) :
  cpuName name = Sprintf_s "%s.cpu.pprof" name /\
  blockName name = Sprintf_s "%s.block.prof" name /\
  traceName name = Sprintf_s "%s.trace.out" name /\
  heapName name = Sprintf_s "%s.heap.prof" name.
Proof. repeat split. Qed.

(** The text of [Commands]: five lines. *)
Lemma Commands_text (name : string) :
  Commands name =
    "go tool pprof " +:+ cpuName name +:+ newline +:+
    "go tool pprof -http=:6060 " +:+ cpuName name +:+ newline +:+
    "go tool trace " +:+ traceName name +:+ newline +:+
    "go tool pprof " +:+ blockName name +:+ newline +:+
    "go tool pprof " +:+ heapName name +:+ newline.
Proof.
  assert (assoc : forall a b c : string, (a +:+ b) +:+ c = a +:+ b +:+ c).
  { intros a b c. induction a as [|x a IH]; [reflexivity|].
    change ((String x a +:+ b) +:+ c) with (String x ((a +:+ b) +:+ c)).
    now rewrite IH. }
  unfold Commands, Commands_printfs. cbn [map fst snd String.concat].
  change (Sprintf_s ("go tool pprof %s" +:+ newline) ?a)
    with ("go tool pprof " +:+ a +:+ newline).
  change (Sprintf_s ("go tool pprof -http=:6060 %s" +:+ newline) ?a)
    with ("go tool pprof -http=:6060 " +:+ a +:+ newline).
  change (Sprintf_s ("go tool trace %s" +:+ newline) ?a)
    with ("go tool trace " +:+ a +:+ newline).
  rewrite !assoc. reflexivity.
Qed.

(** The paths that [Start] hands to [os.Create] are sink names of its
    label. *)
Lemma Start_attempted (name n : string) (s : St) :
  In n (attempted (log (Start name s))) ->
  exists L, label_of name (log (Start name s)) L /\ In n (sinkNames L).
Proof.
  unfold label_of. unfold_go. destruct (started (prof s)); [intros []|].
  destruct (String.eqb name ""); cbn; repeat rt_step; intros H.
  all: eexists; (split; [first [reflexivity | eexists _, _; split; reflexivity] |]).
  all: cbn; tauto.
Qed.

(** X15. [Commands(name)] prints a command for each of the four files of
    label [name] and for nothing else.  For a label that is not empty
    these are the files that [Start(name)] creates.  For the empty label
    they are not: [Start] creates its files under the default label, and
    none of them is a file that [Commands] names. *)
Theorem Commands_and_Start (name n : string) (s : St) :
  (In n (snd <$> Commands_printfs name) <-> In n (sinkNames name)) /\
  (In n (attempted (log (Start name s))) ->
   (name <> "" -> In n (snd <$> Commands_printfs name)) /\
   (name = "" -> ~ In n (snd <$> Commands_printfs name))).
Proof.
  assert (A : In n (snd <$> Commands_printfs name) <-> In n (sinkNames name))
    by (cbn; tauto).
  split; [exact A|]. intros H.
  destruct (Start_attempted name n s H) as (L & HL & Hn). unfold label_of in HL.
  split.
  - intros Hne. apply String.eqb_neq in Hne. rewrite Hne in HL. subst L.
    now apply A.
  - intros ->. cbn in HL. destruct HL as (t & l' & _ & ->). rewrite A. intros Hn'.
    assert (E : defaultName t = "") by exact (sinkNames_label _ _ n Hn Hn').
    inversion E.
Qed.

Lemma Commands_and_Start_witness :
  In "goprof-1793000000000000000.cpu.pprof" (attempted (log (Start "" boot))) /\
  ~ In "goprof-1793000000000000000.cpu.pprof" (snd <$> Commands_printfs "") /\
  In "demo.heap.prof" (snd <$> Commands_printfs "demo").
Proof.
  assert (H : In "goprof-1793000000000000000.cpu.pprof"
                 (attempted (log (Start "" boot)))) by (vm_compute; auto).
  assert (G : In "demo.heap.prof" (attempted (log (Start "demo" boot))))
    by (vm_compute; auto 10).
  split; [exact H|]. split.
  - exact (proj2 (proj2 (Commands_and_Start "" _ boot) H) eq_refl).
  - apply (proj2 (Commands_and_Start "demo" _ boot) G). discriminate.
Defined.
